(** * RunMMC: the BlenderPhotonics operator that launches a photon simulation

    A shallow embedding of [runmmc.py].  The operator reads the Blender scene
    ([bpy.data.objects], the active object), the file [ImageMesh.mat] of the
    work folder and its own dialog properties, builds the dictionary [cfg],
    hands it to the external solver [pmcx.run], and saves three JSON files.

    Conventions of the embedding:
    - Python floats and numpy [float64] entries are real numbers ([R]):
      rounding and overflow are outside the model, and the scales of the
      affine matrix, by which lines 107-108 divide, are read as numbers
      other than 0.  Line 118 divides by a number read from the solver's
      result and takes a logarithm; what numpy yields there where a real
      number has none (a division by 0, the logarithm of 0 or of a
      negative number) is the value [NotFinite] of [npfloat].
    - A Python exception is a value of [exn]; a computation that may raise
      returns [result A], and one that also touches the host or the file
      system is a state transformer over [World] (see [M]).
    - The solver is not part of the program: it is a variable of the
      section that embeds the operator.
    - [GetBPWorkFolder] comes from [utils.py]; what the file system holds
      at the path it returns is the field [workpath] of the environment:
      nothing, a file that is no directory, or a directory with its files.
    - The imports of lines 67, 102 and 114 succeed, [os.makedirs] succeeds
      where nothing is in its way and [jd.save] succeeds in an existing
      directory. *)

From Stdlib Require Import Reals Lra ZArith String List.
From stdpp Require Import gmap strings list.

(** ** Exceptions and results *)

Inductive exn : Type :=
| KeyError
| IndexError
| ValueError
| TypeError
| AttributeError
| FileNotFoundError
| FileExistsError
| NotADirectoryError
| SolverError.

Definition result (A : Type) : Type := (exn + A)%type.

Definition ok {A : Type} (a : A) : result A := inr a.
Definition raise {A : Type} (e : exn) : result A := inl e.

Definition rbind {A B : Type} (r : result A) (k : A -> result B) : result B :=
  match r with
  | inl e => inl e
  | inr a => k a
  end.

Declare Scope result_scope.
Delimit Scope result_scope with result.
Notation "'let?' x ':=' r 'in' k" := (rbind r (fun x => k))
  (at level 10, x name, r at level 100, k at level 200) : result_scope.

(** ** The fragment of numpy the operator uses *)

(** An entry of an array that numpy computed: a number, or one of [nan],
    [inf] and [-inf], which the embedding does not tell apart. *)
Inductive npfloat : Type :=
| Finite (x : R)
| NotFinite.

(** The logarithm to base 10 of a positive number. *)
Definition log10 (x : R) : R := (ln x / ln 10)%R.

Module np.

Local Open Scope R_scope.
Local Open Scope result_scope.

(** One-dimensional arrays are lists, two-dimensional arrays lists of rows. *)
Definition array1 : Type := list R.
Definition array2 : Type := list (list R).

(** [a[i]] for a constant index [i >= 0]. *)
Definition getitem {A : Type} (a : list A) (i : nat) : result A :=
  match nth_error a i with
  | Some x => ok x
  | None => raise IndexError
  end.

(** [a[i, j]]. *)
Definition getitem2 (a : array2) (i j : nat) : result R :=
  let? row := getitem a i in getitem row j.

(** [np.append(a, [x])]. *)
Definition append (a : array1) (x : R) : array1 := a ++ [x].

(** Elementwise binary operation with numpy's broadcasting rule for
    one-dimensional operands: equal lengths, or one operand of length 1. *)
Definition broadcast (f : R -> R -> R) (a b : array1) : result array1 :=
  if decide (length a = length b) then ok (zip_with f a b)
  else match a, b with
       | [x], _ => ok (map (f x) b)
       | _, [y] => ok (map (fun x => f x y) a)
       | _, _ => raise ValueError
       end.

Definition subtract : array1 -> array1 -> result array1 := broadcast Rminus.
Definition divide : array1 -> array1 -> result array1 := broadcast Rdiv.

(** Inner product of a row with a column, summed from the left. *)
Definition inner (r c : list R) : R :=
  fold_left Rplus (zip_with Rmult r c) 0.

(** One entry of [a / b] for a computed array [a] and a number [b]:
    dividing by 0 gives [nan] or an infinity. *)
Definition true_divide (a : npfloat) (b : R) : npfloat :=
  match a with
  | Finite x => if Req_EM_T b 0 then NotFinite else Finite (x / b)
  | NotFinite => NotFinite
  end.

(** One entry of [a + b]. *)
Definition add (a : npfloat) (b : R) : npfloat :=
  match a with
  | Finite x => Finite (x + b)
  | NotFinite => NotFinite
  end.

(** One entry of [np.log10(a)]: [-inf] at 0 and [nan] below it. *)
Definition log10 (a : npfloat) : npfloat :=
  match a with
  | Finite x => if Rlt_dec 0 x then Finite (log10 x) else NotFinite
  | NotFinite => NotFinite
  end.

(** [a.transpose()] of a two-dimensional array. *)
Definition transpose (a : array2) : array2 :=
  match a with
  | [] => []
  | r0 :: _ => map (fun j => map (fun row => nth j row 0) a) (seq 0 (length r0))
  end.

(** [np.dot(a, b)] of two two-dimensional arrays; the shapes must agree. *)
Definition dot (a b : array2) : result array2 :=
  if forallb (fun row => Nat.eqb (length row) (length b)) a
  then ok (map (fun row => map (inner row) (transpose b)) a)
  else raise ValueError.

End np.

(** ** [quaternion2euler] (runmmc.py, lines 86-92) *)

Section Quaternion.

Local Open Scope R_scope.
Local Open Scope result_scope.

Definition quaternion2euler (direction : list R) : result (list R) :=
  match direction with
  | [w; x; y; z] =>
      let R :=
        [ [1 - 2 * y ^ 2 - 2 * z ^ 2; 2 * x * y - 2 * z * w; 2 * x * z + 2 * y * w];
          [2 * x * y + 2 * z * w; 1 - 2 * x ^ 2 - 2 * z ^ 2; 2 * y * z - 2 * x * w];
          [2 * x * z - 2 * y * w; 2 * y * z + 2 * x * w; 1 - 2 * x ^ 2 - 2 * y ^ 2] ] in
      let? d := np.dot R [[0]; [0]; [-1]] in
      np.getitem (np.transpose d) 0
  | _ => raise ValueError
  end.

(** *** What the specification compares it with *)

(** The standard rotation matrix of the quaternion [w + x i + y j + z k],
    in the form the textbooks print it. *)
Definition standard_rotation_matrix (w x y z : R) : list (list R) :=
  [ [1 - 2 * (y * y + z * z); 2 * (x * y - z * w); 2 * (x * z + y * w)];
    [2 * (x * y + z * w); 1 - 2 * (x * x + z * z); 2 * (y * z - x * w)];
    [2 * (x * z - y * w); 2 * (y * z + x * w); 1 - 2 * (x * x + y * y)] ].

(** Matrix times vector, by the usual sum over a row. *)
Definition matvec (m : list (list R)) (v : list R) : list R :=
  map (fun row => fold_right Rplus 0 (zip_with Rmult row v)) m.

(** Hamilton's product and conjugate, to tie [standard_rotation_matrix] to the
    rotation [v |-> q v q*]. *)
Record quat : Type := Quat { qw : R; qx : R; qy : R; qz : R }.

Definition qmul (p q : quat) : quat :=
  {| qw := qw p * qw q - qx p * qx q - qy p * qy q - qz p * qz q;
     qx := qw p * qx q + qx p * qw q + qy p * qz q - qz p * qy q;
     qy := qw p * qy q - qx p * qz q + qy p * qw q + qz p * qx q;
     qz := qw p * qz q + qx p * qy q - qy p * qx q + qz p * qw q |}.

Definition qconj (q : quat) : quat :=
  {| qw := qw q; qx := - qx q; qy := - qy q; qz := - qz q |}.

Definition qrotate (q : quat) (v : list R) : list R :=
  match v with
  | [a; b; c] =>
      let r := qmul (qmul q (Quat 0 a b c)) (qconj q) in
      [qx r; qy r; qz r]
  | _ => []
  end.

Definition norm2 (v : list R) : R := fold_right Rplus 0 (map (fun a => a * a) v).
Definition norm (v : list R) : R := sqrt (norm2 v).

End Quaternion.

(** ** The host scene, the work folder and the solver's data *)

(** A custom property of a Blender ID block: a number, a string or an
    [IDPropertyArray] of numbers. *)
Inductive idprop : Type :=
| IDNum (x : R)
| IDStr (s : string)
| IDArray (xs : list R).

(** A scene object.  [props] are the custom properties read as [obj[key]];
    [data] is [obj.data] ([None] for an empty), given by its custom
    properties in key order.  [rotation_quaternion] is the orientation the
    host reports for the object once its rotation mode is quaternion. *)
Record Object : Type := mkObject {
  name : string;
  location : R * R * R;
  rotation_mode : string;
  rotation_quaternion : R * R * R * R;
  props : gmap string idprop;
  data : option (list (string * idprop))
}.

(** The labelled volume of [ImageMesh.mat]; the operator only passes it on. *)
Record volume : Type := mkVolume {
  vol_shape : nat * nat * nat;
  vol_at : nat -> nat -> nat -> Z
}.

(** Dense arrays of rank 3 and 4: a shape and the entry at each index.  The
    solver's flux has rank 4; the flux that is plotted has rank 3 and is
    computed by numpy. *)
Record array3 : Type := mkArray3 {
  shape3 : nat * nat * nat;
  at3 : nat -> nat -> nat -> npfloat
}.

Record array4 : Type := mkArray4 {
  shape4 : nat * nat * nat * nat;
  at4 : nat -> nat -> nat -> nat -> R
}.

(** The dictionary [cfg] of lines 107-111, one field per key. *)
Record Cfg : Type := mkCfg {
  cfg_vol : volume;
  cfg_prop : list (list idprop);
  cfg_srctype : idprop;
  cfg_srcpos : np.array1;
  cfg_srcdir : list R;
  cfg_srcparam1 : np.array1;
  cfg_srcparam2 : np.array1;
  cfg_nphoton : R;
  cfg_unitinmm : idprop;
  cfg_tstart : Z;
  cfg_tend : R;
  cfg_tstep : R;
  cfg_isreflect : bool;
  cfg_isnormalized : bool;
  cfg_method : string;
  cfg_outputtype : string;
  cfg_basisorder : Z;
  cfg_debuglevel : string;
  cfg_gpuid : string
}.

(** What [pmcx.run] returns: a dictionary of which the operator reads
    [res['flux']] and [res['stat']]. *)
Record Res : Type := mkRes {
  res_flux : option array4;
  res_stat : option (gmap string R)
}.

(** The three objects handed to [jd.save]. *)
Inductive saved : Type :=
| SInfo (prop : list (list idprop)) (cfg : Cfg)
| SResult (res : Res)
| SPlot (flux : array3) (scale : np.array2).

(** A file of the work folder: a MATLAB file with its variables [image]
    and [scale], or a JSON file written by [jd.save]. *)
Inductive file : Type :=
| MatFile (image : option volume) (scale : option np.array2)
| JsonFile (content : saved).

(** What the operator does to its environment, in order. *)
Inductive event : Type :=
| EvPrint (msg : string)
| EvMakedirs
| EvLoadmat (fname : string)
| EvSave (fname : string) (content : saved)
| EvRun (cfg : Cfg)
| EvRemove (obj : string)
| EvPurge (do_recursive : bool).

(** What the file system holds at the path [GetBPWorkFolder()]. *)
Inductive path_state : Type :=
| Missing
| RegularFile
| Directory (files : gmap string file).

(** The environment: [bpy.data.objects], the name of [bpy.context.object],
    the state of the work folder's path and the events so far. *)
Record World : Type := mkWorld {
  objects : list Object;
  context_object : option string;
  workpath : path_state;
  trace : list event
}.

(** The files of the work folder, when its path is a directory. *)
Definition workfolder (w : World) : option (gmap string file) :=
  match workpath w with
  | Directory files => Some files
  | Missing | RegularFile => None
  end.

(** The dialog properties of the operator ([self]). *)
Record Operator : Type := mkOperator {
  tool : string;
  nphoton : R;
  tend : R;
  tstep : R;
  isreflect : bool;
  isnormalized : bool;
  basisorder : Z;
  method : string;
  outputtype : string;
  gpuid : string;
  debuglevel : string;
  colormap : string
}.

(** ** Computations over the environment *)

Definition M (A : Type) : Type := World -> result A * World.

Definition unit_M {A : Type} (a : A) : M A := fun w => (ok a, w).

Definition bind_M {A B : Type} (m : M A) (k : A -> M B) : M B :=
  fun w =>
    match m w with
    | (inl e, w') => (inl e, w')
    | (inr a, w') => k a w'
    end.

Definition lift {A : Type} (r : result A) : M A := fun w => (r, w).

Definition reads {A : Type} (f : World -> A) : M A := fun w => (ok (f w), w).

Declare Scope M_scope.
Delimit Scope M_scope with M.
Notation "'let!' x ':=' m 'in' k" := (bind_M m (fun x => k))
  (at level 10, x name, m at level 100, k at level 200) : M_scope.

Definition log (e : event) : M unit :=
  fun w => (ok tt, mkWorld (objects w) (context_object w) (workpath w) (trace w ++ [e])).

Definition print (msg : string) : M unit := log (EvPrint msg).

(** ** The host interface ([bpy]) *)

Module bpy.

Definition find_object (key : string) (objs : list Object) : option Object :=
  List.find (fun o => String.eqb (name o) key) objs.

(** [bpy.data.objects[key]] *)
Definition objects_getitem (key : string) : M Object :=
  fun w =>
    match find_object key (objects w) with
    | Some o => (ok o, w)
    | None => (raise KeyError, w)
    end.

(** [bpy.context.object], [None] when no object is active. *)
Definition active_object (w : World) : option Object :=
  match context_object w with
  | Some n => find_object n (objects w)
  | None => None
  end.

Definition with_rotation_mode (mode : string) (o : Object) : Object :=
  mkObject (name o) (location o) mode (rotation_quaternion o) (props o) (data o).

(** [bpy.context.object.rotation_mode = mode]: the assignment goes to the
    object of the scene that is active. *)
Definition set_context_rotation_mode (mode : string) : M unit :=
  fun w =>
    match active_object w with
    | None => (raise AttributeError, w)
    | Some a =>
        (ok tt,
         mkWorld
           (map (fun o => if String.eqb (name o) (name a)
                          then with_rotation_mode mode o else o) (objects w))
           (context_object w) (workpath w) (trace w))
    end.

(** [np.array(q).tolist()] of a quaternion of the host. *)
Definition quaternion_list (q : R * R * R * R) : list R :=
  let '(w, x, y, z) := q in [w; x; y; z].

(** [np.array(bpy.context.object.rotation_quaternion).tolist()] *)
Definition context_rotation_quaternion : M (list R) :=
  fun w =>
    match active_object w with
    | None => (raise AttributeError, w)
    | Some a => (ok (quaternion_list (rotation_quaternion a)), w)
    end.

(** [bpy.data.objects.remove(obj)]: the object leaves the scene, and the
    scene has no active object any more if it was the active one. *)
Definition remove (obj : string) (w : World) : World :=
  mkWorld
    (List.filter (fun o => negb (String.eqb (name o) obj)) (objects w))
    (match context_object w with
     | Some n => if String.eqb n obj then None else Some n
     | None => None
     end)
    (workpath w)
    (trace w ++ [EvRemove obj]).

(** [for obj in bpy.data.objects: bpy.data.objects.remove(obj)].  The
    host's iterator has already stepped to the next object when the body
    runs, so the loop visits every object that was in the collection. *)
Definition remove_loop (l : list Object) (w : World) : World :=
  fold_left (fun w' o => remove (name o) w') l w.

Definition remove_all : M unit :=
  fun w => (ok tt, remove_loop (objects w) w).

(** Whether a name is among the given ones. *)
Definition named_in (l : list string) (n : string) : bool :=
  existsb (String.eqb n) l.

(** [bpy.ops.outliner.orphans_purge(do_recursive=...)] *)
Definition orphans_purge (do_recursive : bool) : M unit :=
  log (EvPurge do_recursive).

(** [key in obj] and [obj[key]] on the custom properties of an object. *)
Definition contains (obj : Object) (key : string) : bool :=
  match props obj !! key with
  | Some _ => true
  | None => false
  end.

Definition getitem (obj : Object) (key : string) : result idprop :=
  match props obj !! key with
  | Some v => ok v
  | None => raise KeyError
  end.

(** [v.to_list()], a method of [IDPropertyArray] only. *)
Definition to_list (v : idprop) : result (list idprop) :=
  match v with
  | IDArray xs => ok (map IDNum xs)
  | _ => raise AttributeError
  end.

End bpy.

(** ** The work folder ([os], [scipy.io], [jdata]) *)

Module fs.

(** [os.path.isdir(outputdir)] *)
Definition isdir : M bool :=
  reads (fun w => match workfolder w with Some _ => true | None => false end).

(** [os.makedirs(outputdir)]: a new, empty directory where the path held
    nothing; [FileExistsError] where it holds a directory or any other file. *)
Definition makedirs : M unit :=
  fun w =>
    match workpath w with
    | Missing =>
        (ok tt,
         mkWorld (objects w) (context_object w) (Directory ∅) (trace w ++ [EvMakedirs]))
    | RegularFile | Directory _ => (raise FileExistsError, w)
    end.

(** [scipy.io.loadmat(os.path.join(outputdir, fname))]: the variables of
    the file.  Opening a name below a path that is a file raises
    [NotADirectoryError] (as on POSIX systems). *)
Definition loadmat (fname : string) : M (option volume * option np.array2) :=
  fun w =>
    let w' := mkWorld (objects w) (context_object w) (workpath w) (trace w ++ [EvLoadmat fname]) in
    match workpath w with
    | Missing => (raise FileNotFoundError, w')
    | RegularFile => (raise NotADirectoryError, w')
    | Directory dir =>
        match dir !! fname with
        | Some (MatFile image scale) => (ok (image, scale), w')
        | Some (JsonFile _) => (raise ValueError, w')
        | None => (raise FileNotFoundError, w')
        end
    end.

Definition getvar {A : Type} (v : option A) : result A :=
  match v with
  | Some a => ok a
  | None => raise KeyError
  end.

(** [jd.save(content, os.path.join(outputdir, fname))]: the file is
    written, over an older one of that name if there is one, in a directory
    that exists. *)
Definition save (content : saved) (fname : string) : M unit :=
  fun w =>
    match workpath w with
    | Missing => (raise FileNotFoundError, w)
    | RegularFile => (raise NotADirectoryError, w)
    | Directory dir =>
        (ok tt,
         mkWorld (objects w) (context_object w)
           (Directory (<[fname := JsonFile content]> dir))
           (trace w ++ [EvSave fname content]))
    end.

End fs.

(** ** The operator [runmmc] (runmmc.py, lines 45-139) *)

Section Runmmc.

(** [pmcx.run], the external solver. *)
Variable pmcx_run : Cfg -> result Res.

Local Open Scope result_scope.
Local Open Scope M_scope.

(** *** Lines 70-79: the optical parameters *)

(** The [for] loop of the [try] block, over the keys of [obj.data]: it
    appends to [parameters] and stops at the first exception, leaving
    the list as it is at that point. *)
Fixpoint iso2mesh_loop (d : list (string * idprop)) (keys : list string)
    (parameters : list (list idprop)) : list (list idprop) * option exn :=
  match keys with
  | [] => (parameters, None)
  | prop :: rest =>
      match List.find (fun kv => String.eqb (fst kv) prop) d with
      | None => (parameters, Some KeyError)
      | Some kv =>
          match bpy.to_list (snd kv) with
          | inl e => (parameters, Some e)
          | inr l => iso2mesh_loop d rest (parameters ++ [l])
          end
      end
  end.

(** The [try] block (lines 72-74). *)
Definition try_iso2mesh (objs : list Object) (parameters : list (list idprop))
    : list (list idprop) * option exn :=
  match bpy.find_object "Iso2Mesh" objs with
  | None => (parameters, Some KeyError)
  | Some obj =>
      match data obj with
      | None => (parameters, Some AttributeError)
      | Some d => iso2mesh_loop d (map fst d) parameters
      end
  end.

(** The [for] loop of the [except] block (lines 76-79). *)
Fixpoint fallback_loop (objs : list Object) (parameters : list (list idprop))
    : result (list (list idprop)) :=
  match objs with
  | [] => ok parameters
  | obj :: rest =>
      if negb (bpy.contains obj "mua") then fallback_loop rest parameters
      else
        let? mua := bpy.getitem obj "mua" in
        let? mus := bpy.getitem obj "mus" in
        let? g := bpy.getitem obj "g" in
        let? n := bpy.getitem obj "n" in
        fallback_loop rest (parameters ++ [[mua; mus; g; n]])
  end.

(** Lines 70-79; [removelast] is the slice [[0:-1]]. *)
Definition gather_parameters (objs : list Object) : result (list (list idprop)) :=
  let parameters := [] in
  match try_iso2mesh objs parameters with
  | (parameters, None) => ok parameters
  | (parameters, Some _) => fallback_loop (removelast objs) parameters
  end.

(** *** Lines 81-96: the source *)

(** [np.array(obj.location)] *)
Definition vector_array (v : R * R * R) : np.array1 :=
  let '(x, y, z) := v in [x; y; z].

(** [np.array([val for val in v])]: an array of numbers, or of the
    characters of a string, which no arithmetic accepts. *)
Inductive pyarray : Type :=
| NumArray (xs : list R)
| StrArray (s : string).

Definition array_of_prop (v : idprop) : result pyarray :=
  match v with
  | IDArray xs => ok (NumArray xs)
  | IDStr s => ok (StrArray s)
  | IDNum _ => raise TypeError
  end.

(** [np.array([val for val in obj[key]])] *)
Definition source_array (obj : Object) (key : string) : result pyarray :=
  let? v := bpy.getitem obj key in array_of_prop v.

(** [a / b] for [a] built by [array_of_prop]. *)
Definition divide_pyarray (a : pyarray) (b : np.array1) : result np.array1 :=
  match a with
  | NumArray xs => np.divide xs b
  | StrArray EmptyString => np.divide [] b
  | StrArray _ => raise TypeError
  end.

(** [v * s] for a custom property [v] and a numpy scalar [s]. *)
Definition multiply_prop (v : idprop) (s : R) : result idprop :=
  match v with
  | IDNum u => ok (IDNum (u * s)%R)
  | IDArray xs => ok (IDArray (map (fun u => (u * s)%R) xs))
  | IDStr _ => raise TypeError
  end.

(** *** Lines 105-111: [move], [scale] and the dictionary [cfg] *)

Definition affine_move (affine_matrix : np.array2) : result np.array1 :=
  let? a := np.getitem2 affine_matrix 0 3 in
  let? b := np.getitem2 affine_matrix 1 3 in
  let? c := np.getitem2 affine_matrix 2 3 in
  ok [a; b; c].

Definition affine_scale (affine_matrix : np.array2) : result np.array1 :=
  let? a := np.getitem2 affine_matrix 0 0 in
  let? b := np.getitem2 affine_matrix 1 1 in
  let? c := np.getitem2 affine_matrix 2 2 in
  ok [a; b; c].

Definition make_cfg (self : Operator) (obj : Object) (vol : volume)
    (parameters : list (list idprop)) (location : np.array1) (dir : list R)
    (srcparam1 srcparam2 : pyarray) (move scale : np.array1) : result Cfg :=
  let? srctype := bpy.getitem obj "srctype" in
  let? diff := np.subtract location move in
  let? srcpos := np.divide diff scale in
  let? p1 := divide_pyarray srcparam1 (np.append scale 1) in
  let? p2 := divide_pyarray srcparam2 (np.append scale 1) in
  let? srctype := bpy.getitem obj "srctype" in
  let? u := bpy.getitem obj "unitinmm" in
  let? s0 := np.getitem scale 0 in
  let? unitinmm := multiply_prop u s0 in
  ok (mkCfg vol parameters srctype srcpos dir p1 p2 (nphoton self) unitinmm 0
        (tend self) (tstep self) (isreflect self) (isnormalized self)
        (method self) (outputtype self) (basisorder self) (debuglevel self)
        (gpuid self)).

(** *** Line 118: the flux that is plotted *)

(** [a[:, :, :, 0]] *)
Definition first_gate (a : array4) : result array3 :=
  let '(n1, n2, n3, n4) := shape4 a in
  if Nat.eqb n4 0 then raise IndexError
  else ok (mkArray3 (n1, n2, n3) (fun i j k => Finite (at4 a i j k 0))).

(** An operation applied to every entry. *)
Definition map3 (f : npfloat -> npfloat) (a : array3) : array3 :=
  mkArray3 (shape3 a) (fun i j k => f (at3 a i j k)).

Definition plot_flux (res : Res) : result array3 :=
  let? f := fs.getvar (res_flux res) in
  let? f0 := first_gate f in
  let? stat := fs.getvar (res_stat res) in
  let? normalizer := fs.getvar (stat !! "normalizer") in
  ok (map3 np.log10
        (map3 (fun x => np.add x 1) (map3 (fun x => np.true_divide x normalizer) f0))).

(** [pmcx.run(cfg)] *)
Definition run (cfg : Cfg) : M Res :=
  let! _ := log (EvRun cfg) in lift (pmcx_run cfg).

(** *** [preparemmc] (lines 66-131) *)

Definition preparemmc (self : Operator) : M unit :=
  let! objs := reads objects in
  let! parameters := lift (gather_parameters objs) in
  let! obj := bpy.objects_getitem "source" in
  let location := vector_array (location obj) in
  let! _ := bpy.set_context_rotation_mode "QUATERNION" in
  let! direction := bpy.context_rotation_quaternion in
  let! dir := lift (quaternion2euler direction) in
  let! srcparam1 := lift (source_array obj "srcparam1") in
  let! srcparam2 := lift (source_array obj "srcparam2") in
  let! exists_ := fs.isdir in
  let! _ := (if negb exists_ then fs.makedirs else unit_M tt) in
  let! mat := fs.loadmat "ImageMesh.mat" in
  let! vol := lift (fs.getvar (fst mat)) in
  let! mat := fs.loadmat "ImageMesh.mat" in
  let! affine_matrix := lift (fs.getvar (snd mat)) in
  let! move := lift (affine_move affine_matrix) in
  let! scale := lift (affine_scale affine_matrix) in
  let! cfg := lift (make_cfg self obj vol parameters location dir
                      srcparam1 srcparam2 move scale) in
  let! _ := fs.save (SInfo parameters cfg) "mmcinfo.json" in
  let! res := run cfg in
  let! _ := fs.save (SResult res) "mcx_result.json" in
  let! flux := lift (plot_flux res) in
  let result := SPlot flux affine_matrix in
  let! _ := fs.save result "plot_result.json" in
  let! _ := bpy.remove_all in
  let! _ := bpy.orphans_purge true in
  let! _ := print "Finshed!, Please change intereaction mode to Weight Paint to see result!" in
  print "If you prefer a perspective effect，please go to edit mode and make sure shading 'Vertex Group Weight' is on.".

(** *** [execute] (lines 133-136) *)

Definition execute (self : Operator) : M (gset string) :=
  let! _ := print "Begin to run MMC source transport simulation ..." in
  let! _ := preparemmc self in
  unit_M {[ "FINISHED" ]}.

End Runmmc.

(** ** Reading a trace *)

(** The configurations handed to the solver, in order. *)
Definition solver_calls (tr : list event) : list Cfg :=
  flat_map (fun e => match e with EvRun cfg => [cfg] | _ => [] end) tr.

(** The files written by [jd.save], in order. *)
Definition saves (tr : list event) : list (string * saved) :=
  flat_map (fun e => match e with EvSave f c => [(f, c)] | _ => [] end) tr.

(** The events [preparemmc] adds when no step raises: two reads of
    [ImageMesh.mat], the three saves around the solver call, one removal per
    scene object, the purge and the two closing messages. *)
Definition prepare_events (objs : list Object) (parameters : list (list idprop))
    (cfg : Cfg) (res : Res) (flux : array3) (affine_matrix : np.array2) : list event :=
  [ EvLoadmat "ImageMesh.mat"; EvLoadmat "ImageMesh.mat";
    EvSave "mmcinfo.json" (SInfo parameters cfg);
    EvRun cfg;
    EvSave "mcx_result.json" (SResult res);
    EvSave "plot_result.json" (SPlot flux affine_matrix) ]
  ++ map EvRemove (map name objs)
  ++ [ EvPurge true;
       EvPrint "Finshed!, Please change intereaction mode to Weight Paint to see result!";
       EvPrint "If you prefer a perspective effect，please go to edit mode and make sure shading 'Vertex Group Weight' is on." ].

(** The work folder after the three saves. *)
Definition saved_folder (folder : gmap string file) (parameters : list (list idprop))
    (cfg : Cfg) (res : Res) (flux : array3) (affine_matrix : np.array2) : gmap string file :=
  <["plot_result.json" := JsonFile (SPlot flux affine_matrix)]>
    (<["mcx_result.json" := JsonFile (SResult res)]>
       (<["mmcinfo.json" := JsonFile (SInfo parameters cfg)]> folder)).

(** ** The fallback of the optical parameters, as the specification words it *)

(** The four-element list [[mua, mus, g, n]] of an object. *)
Definition four_parameters (obj : Object) : result (list idprop) :=
  (let? mua := bpy.getitem obj "mua" in
   let? mus := bpy.getitem obj "mus" in
   let? g := bpy.getitem obj "g" in
   let? n := bpy.getitem obj "n" in
   ok [mua; mus; g; n])%result.

(** One list element per input, up to the first that raises. *)
Fixpoint collect {A B : Type} (f : A -> result B) (l : list A) : result (list B) :=
  match l with
  | [] => ok []
  | a :: rest =>
      (let? b := f a in
       let? bs := collect f rest in
       ok (b :: bs))%result
  end.

(** All scene objects except the last, those lacking ["mua"] skipped, each
    of the others giving its four-element list, in scene order. *)
Definition fallback_spec (objs : list Object) : result (list (list idprop)) :=
  collect four_parameters
    (List.filter (fun obj => bpy.contains obj "mua") (removelast objs)).

(** ** Concrete scenes, used to run the embedding *)

Module Examples.

Local Open Scope R_scope.

Definition tissue (n : string) (mua mus g ri : R) : Object :=
  mkObject n (0, 0, 0) "XYZ" (1, 0, 0, 0)
    (<["mua" := IDNum mua]> (<["mus" := IDNum mus]> (<["g" := IDNum g]> (<["n" := IDNum ri]> ∅))))
    (Some []).

Definition source_props : gmap string idprop :=
  <["srctype" := IDStr "pencil"]>
    (<["srcparam1" := IDArray [4; 6; 8; 5]]>
       (<["srcparam2" := IDArray [0; 0; 0; 0]]>
          (<["unitinmm" := IDNum 1]> ∅))).

(** A light source at (30, 30, 0) in its rest orientation. *)
Definition source : Object :=
  mkObject "source" (30, 30, 0) "XYZ" (1, 0, 0, 0) source_props None.

(** An affine matrix with scales (2, 2, 4) and translation (10, 20, 0). *)
Definition affine : np.array2 :=
  [ [2; 0; 0; 10];
    [0; 2; 0; 20];
    [0; 0; 4; 0];
    [0; 0; 0; 1] ].

Definition image : volume := mkVolume (1%nat, 1%nat, 1%nat) (fun _ _ _ => 1%Z).

Definition folder : gmap string file :=
  <["ImageMesh.mat" := MatFile (Some image) (Some affine)]> ∅.

(** Two tissue regions and the source, which is the active object. *)
Definition scene : World :=
  mkWorld
    [ tissue "region_1" 0 0 1 1; tissue "region_2" (1/100) 1 (9/10) (137/100); source ]
    (Some "source") (Directory folder) [].

Definition dialog : Operator :=
  mkOperator "1" 10000 (5/1000000000) (5/1000000000) true true 1 "grid" "flux" "1" "TP" "jet".

(** A solver that returns one voxel and one time gate with no flux. *)
Definition dark : Res :=
  mkRes (Some (mkArray4 (1%nat, 1%nat, 1%nat, 1%nat) (fun _ _ _ _ => 0)))
        (Some (<["normalizer" := 2]> ∅)).

Definition solver (cfg : Cfg) : result Res := ok dark.

(** The scene after the operator ran on it. *)
Definition finished : World := snd (execute solver dialog scene).

(** The same scene with the first tissue region active and turned half a
    turn about its x axis; the source keeps its rest orientation. *)
Definition turned_region : Object :=
  mkObject "region_1" (0, 0, 0) "QUATERNION" (0, 1, 0, 0)
    (props (tissue "region_1" 0 0 1 1)) (Some []).

Definition scene_region_active : World :=
  mkWorld
    [ turned_region; tissue "region_2" (1/100) 1 (9/10) (137/100); source ]
    (Some "region_1") (Directory folder) [].

Definition finished_region_active : World :=
  snd (execute solver dialog scene_region_active).


(** A scene whose object [Iso2Mesh] carries one array property and then a
    string property on its mesh. *)
Definition iso2mesh : Object :=
  mkObject "Iso2Mesh" (0, 0, 0) "XYZ" (1, 0, 0, 0) ∅
    (Some [("region_1", IDArray [0; 0; 1; 1]); ("label", IDStr "skin")]).

Definition scene_mixed_mesh : World :=
  mkWorld
    [ iso2mesh; tissue "region_2" (1/100) 1 (9/10) (137/100); source ]
    (Some "source") (Directory folder) [].

(** The scene before the work folder exists. *)
Definition scene_without_folder : World :=
  mkWorld (objects scene) (context_object scene) Missing [].

(** The scene when a file that is no directory has the name of the work
    folder. *)
Definition scene_file_in_the_way : World :=
  mkWorld (objects scene) (context_object scene) RegularFile [].

(** The scene in a work folder whose [ImageMesh.mat] has the identity as
    its affine matrix. *)
Definition affine_identity : np.array2 :=
  [ [1; 0; 0; 0];
    [0; 1; 0; 0];
    [0; 0; 1; 0];
    [0; 0; 0; 1] ].

Definition folder_identity : gmap string file :=
  <["ImageMesh.mat" := MatFile (Some image) (Some affine_identity)]> ∅.

Definition scene_identity : World :=
  mkWorld (objects scene) (context_object scene) (Directory folder_identity) [].



End Examples.

(** ** Runs that raise *)

(** The scene once line 83 has switched the active object to quaternions. *)
Definition quaternion_mode (act : Object) (objs : list Object) : list Object :=
  map (fun o => if String.eqb (name o) (name act)
                then bpy.with_rotation_mode "QUATERNION" o else o) objs.

(** The environment once [execute] has printed its first message. *)
Definition begun (w : World) : World :=
  mkWorld (objects w) (context_object w) (workpath w)
    (trace w ++ [EvPrint "Begin to run MMC source transport simulation ..."]).

Section Raised.

Variable pmcx_run : Cfg -> result Res.

(** Where [preparemmc], started in [w], can raise, and the environment it
    leaves behind in each case. *)
Inductive raised (w : World) : exn -> World -> Prop :=
| raised_in_scene (e : exn) :
    (* lines 70-83, before the rotation mode is assigned *)
    raised w e w
| raised_at_source (e : exn) (act : Object) :
    (* lines 84-96, and line 101 when the path is taken by a file *)
    bpy.active_object w = Some act ->
    raised w e
      (mkWorld (quaternion_mode act (objects w)) (context_object w) (workpath w) (trace w))
| raised_in_new_folder (act : Object) :
    (* line 103, after line 101 created the folder *)
    bpy.active_object w = Some act ->
    workpath w = Missing ->
    raised w FileNotFoundError
      (mkWorld (quaternion_mode act (objects w)) (context_object w) (Directory ∅)
         (trace w ++ [EvMakedirs; EvLoadmat "ImageMesh.mat"]))
| raised_at_image (e : exn) (act : Object) (folder : gmap string file) :
    (* line 103 *)
    bpy.active_object w = Some act ->
    workfolder w = Some folder ->
    raised w e
      (mkWorld (quaternion_mode act (objects w)) (context_object w) (Directory folder)
         (trace w ++ [EvLoadmat "ImageMesh.mat"]))
| raised_at_cfg (e : exn) (act : Object) (folder : gmap string file) :
    (* lines 104-111 *)
    bpy.active_object w = Some act ->
    workfolder w = Some folder ->
    raised w e
      (mkWorld (quaternion_mode act (objects w)) (context_object w) (Directory folder)
         (trace w ++ [EvLoadmat "ImageMesh.mat"; EvLoadmat "ImageMesh.mat"]))
| raised_by_solver (e : exn) (act : Object) (folder : gmap string file)
    (parameters : list (list idprop)) (cfg : Cfg) :
    (* line 116 *)
    bpy.active_object w = Some act ->
    workfolder w = Some folder ->
    pmcx_run cfg = inl e ->
    raised w e
      (mkWorld (quaternion_mode act (objects w)) (context_object w)
         (Directory (<["mmcinfo.json" := JsonFile (SInfo parameters cfg)]> folder))
         (trace w ++ [ EvLoadmat "ImageMesh.mat"; EvLoadmat "ImageMesh.mat";
                       EvSave "mmcinfo.json" (SInfo parameters cfg); EvRun cfg ]))
| raised_at_flux (e : exn) (act : Object) (folder : gmap string file)
    (parameters : list (list idprop)) (cfg : Cfg) (res : Res) :
    (* line 118 *)
    bpy.active_object w = Some act ->
    workfolder w = Some folder ->
    pmcx_run cfg = ok res ->
    plot_flux res = inl e ->
    raised w e
      (mkWorld (quaternion_mode act (objects w)) (context_object w)
         (Directory (<["mcx_result.json" := JsonFile (SResult res)]>
                       (<["mmcinfo.json" := JsonFile (SInfo parameters cfg)]> folder)))
         (trace w ++ [ EvLoadmat "ImageMesh.mat"; EvLoadmat "ImageMesh.mat";
                       EvSave "mmcinfo.json" (SInfo parameters cfg); EvRun cfg;
                       EvSave "mcx_result.json" (SResult res) ])).

End Raised.

(** ** More scenes *)

Module MoreExamples.

Import Examples.

Local Open Scope R_scope.

(** A solver that raises. *)
Definition broken_solver (cfg : Cfg) : result Res := raise SolverError.

(** A solver whose result has no ['flux']. *)
Definition no_flux : Res := mkRes None (Some (<["normalizer" := 2]> ∅)).

Definition fluxless_solver (cfg : Cfg) : result Res := ok no_flux.

(** An object [Iso2Mesh] whose mesh holds the parameters of two regions. *)
Definition iso2mesh_regions : Object :=
  mkObject "Iso2Mesh" (0, 0, 0) "XYZ" (1, 0, 0, 0) ∅
    (Some [ ("region_1", IDArray [0; 0; 1; 1]);
            ("region_2", IDArray [1 / 100; 1; 9 / 10; 137 / 100]) ]).

(** That object in a scene that also has a region with its own ["mua"]. *)
Definition scene_iso2mesh : World :=
  mkWorld [ iso2mesh_regions; tissue "stray" 5 5 5 5; source ]
    (Some "source") (Directory folder) [].

(** A region that has ["mua"] but no ["g"]. *)
Definition half_region : Object :=
  mkObject "region_3" (0, 0, 0) "XYZ" (1, 0, 0, 0)
    (<["mua" := IDNum 1]> (<["mus" := IDNum 1]> (<["n" := IDNum 1]> ∅))) (Some []).

(** The example scene without its source, and with no active object. *)
Definition scene_no_source : World :=
  mkWorld [ tissue "region_1" 0 0 1 1; tissue "region_2" (1/100) 1 (9/10) (137/100) ]
    (Some "region_1") (Directory folder) [].

Definition scene_no_active : World :=
  mkWorld (objects scene) None (Directory folder) [].

(** The example scene in a folder that lacks [ImageMesh.mat] and holds the
    result of an earlier run. *)
Definition stale_folder : gmap string file :=
  <["mcx_result.json" := JsonFile (SResult dark)]> ∅.

Definition scene_stale : World :=
  mkWorld (objects scene) (context_object scene) (Directory stale_folder) [].

(** The example folder with the result of an earlier run in it. *)
Definition used_folder : gmap string file :=
  <["mcx_result.json" := JsonFile (SResult dark)]> folder.

Definition scene_used : World :=
  mkWorld (objects scene) (context_object scene) (Directory used_folder) [].

(** A source with a one-component [srcparam1]. *)
Definition source_one : Object :=
  mkObject "source" (30, 30, 0) "XYZ" (1, 0, 0, 0)
    (<["srcparam1" := IDArray [6]]> source_props) None.

Definition scene_one : World :=
  mkWorld [ tissue "region_1" 0 0 1 1; source_one ] (Some "source") (Directory folder) [].

(** A second dialog, with the other tool and another colour map. *)
Definition dialog_mmc : Operator :=
  mkOperator "2" 10000 (5/1000000000) (5/1000000000) true true 1 "grid" "flux" "1" "TP" "hot".

End MoreExamples.

(** ** Tactics *)

(** Equality of two lists of reals, entry by entry. *)
Ltac real_list := repeat (apply f_equal2; [lra |]); reflexivity.

(** * Properties *)

(** ** [quaternion2euler] in closed form *)

Section QuaternionFacts.

Local Open Scope R_scope.

Lemma quaternion2euler_unfold (w x y z : R) :
  quaternion2euler [w; x; y; z] =
  ok [ (0 + (1 - 2 * y ^ 2 - 2 * z ^ 2) * 0 + (2 * x * y - 2 * z * w) * 0
          + (2 * x * z + 2 * y * w) * -1);
       (0 + (2 * x * y + 2 * z * w) * 0 + (1 - 2 * x ^ 2 - 2 * z ^ 2) * 0
          + (2 * y * z - 2 * x * w) * -1);
       (0 + (2 * x * z - 2 * y * w) * 0 + (2 * y * z + 2 * x * w) * 0
          + (1 - 2 * x ^ 2 - 2 * y ^ 2) * -1) ].
Proof. reflexivity. Qed.

Lemma quaternion2euler_closed (w x y z : R) :
  quaternion2euler [w; x; y; z] =
  ok [ - (2 * x * z + 2 * y * w); - (2 * y * z - 2 * x * w); - (1 - 2 * x ^ 2 - 2 * y ^ 2) ].
Proof.
  rewrite quaternion2euler_unfold. unfold ok.
  do 2 f_equal; [ring | f_equal; [ring | f_equal; ring]].
Qed.

End QuaternionFacts.

(** ** Facts about the monad and the host interface *)

Section MonadFacts.

Lemma bind_M_ok {A B : Type} (m : M A) (k : A -> M B) (w w' : World) (b : B) :
  bind_M m k w = (inr b, w') ->
  exists a w1, m w = (inr a, w1) /\ k a w1 = (inr b, w').
Proof.
  unfold bind_M. destruct (m w) as [[e | a] w1]; [discriminate |].
  intros H. exists a, w1. split; [reflexivity | exact H].
Qed.

Lemma bind_M_inr {A B : Type} (m : M A) (k : A -> M B) (w : World) (a : A) (w1 : World) :
  m w = (inr a, w1) -> bind_M m k w = k a w1.
Proof. intros H. unfold bind_M. rewrite H. reflexivity. Qed.

Lemma bind_M_inl {A B : Type} (m : M A) (k : A -> M B) (w w1 : World) (e : exn) :
  m w = (inl e, w1) -> bind_M m k w = (inl e, w1).
Proof. intros H. unfold bind_M. rewrite H. reflexivity. Qed.

Lemma bind_M_raises {A B : Type} (m : M A) (k : A -> M B) (w w' : World) (e : exn) :
  bind_M m k w = (inl e, w') ->
  m w = (inl e, w') \/ exists a w1, m w = (inr a, w1) /\ k a w1 = (inl e, w').
Proof.
  unfold bind_M. destruct (m w) as [[e1 | a] w1]; intros H.
  - left. injection H as -> ->. reflexivity.
  - right. exists a, w1. split; [reflexivity | exact H].
Qed.

Lemma lift_ok {A : Type} (r : result A) (w w' : World) (a : A) :
  lift r w = (inr a, w') -> r = ok a /\ w' = w.
Proof. unfold lift. intros H. inversion H. split; reflexivity. Qed.

Lemma reads_ok {A : Type} (f : World -> A) (w w' : World) (a : A) :
  reads f w = (inr a, w') -> a = f w /\ w' = w.
Proof. unfold reads, ok. intros H. inversion H. split; reflexivity. Qed.

Lemma log_ok (e : event) (w w' : World) (u : unit) :
  log e w = (inr u, w') ->
  w' = mkWorld (objects w) (context_object w) (workpath w) (trace w ++ [e]).
Proof. unfold log, ok. intros H. inversion H. reflexivity. Qed.

End MonadFacts.

Section HostFacts.

Lemma find_object_name (key : string) (objs : list Object) (o : Object) :
  bpy.find_object key objs = Some o -> name o = key /\ In o objs.
Proof.
  unfold bpy.find_object. intros H. apply find_some in H as [Hin Heq].
  apply String.eqb_eq in Heq. split; assumption.
Qed.

(** Changing the rotation mode of the active object renames nothing, so the
    object is found again under its name, with the new mode. *)
Lemma find_object_set_mode (key mode : string) (objs : list Object) (a : Object) :
  bpy.find_object key objs = Some a ->
  bpy.find_object key
    (map (fun o => if String.eqb (name o) (name a)
                   then bpy.with_rotation_mode mode o else o) objs)
  = Some (bpy.with_rotation_mode mode a).
Proof.
  intros Hfind. destruct (find_object_name _ _ _ Hfind) as [Hname _].
  subst key. revert Hfind. unfold bpy.find_object.
  induction objs as [| o objs IH]; simpl; [discriminate |].
  destruct (String.eqb (name o) (name a)) eqn:Ho.
  - intros [= ->]. simpl. rewrite Ho. reflexivity.
  - intros Hrest. simpl. rewrite Ho. apply IH. exact Hrest.
Qed.

Lemma map_name_set_mode (mode key : string) (objs : list Object) :
  map name (map (fun o => if String.eqb (name o) key
                          then bpy.with_rotation_mode mode o else o) objs)
  = map name objs.
Proof.
  induction objs as [| o objs IH]; simpl; [reflexivity |].
  rewrite IH. destruct (String.eqb (name o) key); reflexivity.
Qed.

(** The removal loop, field by field. *)
Lemma remove_loop_trace (l : list Object) (w : World) :
  trace (bpy.remove_loop l w) = trace w ++ map EvRemove (map name l).
Proof.
  unfold bpy.remove_loop. revert w.
  induction l as [| o l IH]; intros w; simpl.
  - symmetry. apply app_nil_r.
  - rewrite IH. simpl. rewrite <- app_assoc. reflexivity.
Qed.

Lemma remove_loop_workpath (l : list Object) (w : World) :
  workpath (bpy.remove_loop l w) = workpath w.
Proof.
  unfold bpy.remove_loop. revert w.
  induction l as [| o l IH]; intros w; simpl; [reflexivity |].
  rewrite IH. reflexivity.
Qed.

Lemma remove_loop_objects (l : list Object) (w : World) :
  objects (bpy.remove_loop l w)
  = List.filter (fun o => negb (bpy.named_in (map name l) (name o))) (objects w).
Proof.
  unfold bpy.remove_loop. revert w.
  induction l as [| o l IH]; intros w; simpl.
  - induction (objects w) as [| x xs IHx]; simpl; [reflexivity |].
    f_equal. exact IHx.
  - rewrite IH. simpl.
    induction (objects w) as [| x xs IHx]; simpl; [reflexivity |].
    destruct (String.eqb (name x) (name o)); simpl.
    + exact IHx.
    + destruct (bpy.named_in (map name l) (name x)); simpl; [exact IHx |].
      f_equal. exact IHx.
Qed.

Lemma remove_loop_context (l : list Object) (w : World) :
  context_object (bpy.remove_loop l w)
  = match context_object w with
    | Some n => if bpy.named_in (map name l) n then None else Some n
    | None => None
    end.
Proof.
  unfold bpy.remove_loop. revert w.
  induction l as [| o l IH]; intros w; simpl.
  - destruct (context_object w); reflexivity.
  - rewrite IH. simpl.
    destruct (context_object w) as [n |]; [| reflexivity].
    destruct (String.eqb n (name o)); [reflexivity |]. reflexivity.
Qed.

Lemma named_in_In (l : list Object) (o : Object) :
  In o l -> bpy.named_in (map name l) (name o) = true.
Proof.
  intros Hin. unfold bpy.named_in. apply existsb_exists.
  exists (name o). split; [apply in_map; exact Hin | apply String.eqb_refl].
Qed.

(** The loop over a collection empties that collection. *)
Lemma remove_loop_all (w : World) : objects (bpy.remove_loop (objects w) w) = [].
Proof.
  rewrite remove_loop_objects.
  assert (H : forall l l' : list Object, incl l' l ->
            List.filter (fun o => negb (bpy.named_in (map name l) (name o))) l' = []).
  { intros l l'. induction l' as [| x xs IH]; intros Hincl; simpl; [reflexivity |].
    rewrite named_in_In by (apply Hincl; left; reflexivity). simpl.
    apply IH. intros y Hy. apply Hincl. right. exact Hy. }
  apply H. apply incl_refl.
Qed.

End HostFacts.

(** ** What a successful run did *)

Section RunFacts.

Variable pmcx_run : Cfg -> result Res.

Lemma objects_getitem_ok (key : string) (w w' : World) (o : Object) :
  bpy.objects_getitem key w = (inr o, w') ->
  bpy.find_object key (objects w) = Some o /\ w' = w.
Proof.
  unfold bpy.objects_getitem.
  destruct (bpy.find_object key (objects w)); intros H; inversion H.
  split; reflexivity.
Qed.

Lemma set_context_rotation_mode_ok (mode : string) (w w' : World) (u : unit) :
  bpy.set_context_rotation_mode mode w = (inr u, w') ->
  exists a, bpy.active_object w = Some a /\
    w' = mkWorld
           (map (fun o => if String.eqb (name o) (name a)
                          then bpy.with_rotation_mode mode o else o) (objects w))
           (context_object w) (workpath w) (trace w).
Proof.
  unfold bpy.set_context_rotation_mode.
  destruct (bpy.active_object w) as [a |]; intros H; inversion H.
  exists a. split; reflexivity.
Qed.

Lemma context_rotation_quaternion_ok (w w' : World) (q : list R) :
  bpy.context_rotation_quaternion w = (inr q, w') ->
  exists a, bpy.active_object w = Some a /\
    q = bpy.quaternion_list (rotation_quaternion a) /\ w' = w.
Proof.
  unfold bpy.context_rotation_quaternion.
  destruct (bpy.active_object w) as [a |]; intros H; inversion H.
  exists a. repeat split; reflexivity.
Qed.

Lemma loadmat_ok (fname : string) (w w' : World) (r : option volume * option np.array2) :
  fs.loadmat fname w = (inr r, w') ->
  exists dir, workpath w = Directory dir /\
    dir !! fname = Some (MatFile (fst r) (snd r)) /\
    w' = mkWorld (objects w) (context_object w) (workpath w) (trace w ++ [EvLoadmat fname]).
Proof.
  unfold fs.loadmat.
  destruct (workpath w) as [| | dir]; try (intros H; inversion H; fail).
  destruct (dir !! fname) as [[image scale | c] |] eqn:Hf; intros H; inversion H.
  exists dir. split; [reflexivity | split; [exact Hf | reflexivity]].
Qed.

Lemma save_ok (content : saved) (fname : string) (w w' : World) (u : unit) :
  fs.save content fname w = (inr u, w') ->
  exists dir, workpath w = Directory dir /\
    w' = mkWorld (objects w) (context_object w)
           (Directory (<[fname := JsonFile content]> dir))
           (trace w ++ [EvSave fname content]).
Proof.
  unfold fs.save.
  destruct (workpath w) as [| | dir]; intros H; inversion H.
  exists dir. split; reflexivity.
Qed.

Lemma getvar_ok {A : Type} (v : option A) (a : A) :
  fs.getvar v = ok a -> v = Some a.
Proof. destruct v; unfold fs.getvar, ok, raise; congruence. Qed.

Lemma run_ok (cfg : Cfg) (w w' : World) (res : Res) :
  run pmcx_run cfg w = (inr res, w') ->
  pmcx_run cfg = ok res /\
  w' = mkWorld (objects w) (context_object w) (workpath w) (trace w ++ [EvRun cfg]).
Proof.
  unfold run. intros H.
  apply bind_M_ok in H as (u & w1 & Hlog & H).
  apply log_ok in Hlog. apply lift_ok in H as [Hr ->].
  split; assumption.
Qed.

(** The steps of [preparemmc] when none of them raises. *)
Lemma preparemmc_ok (self : Operator) (w w' : World) (u : unit) :
  preparemmc pmcx_run self w = (inr u, w') ->
  exists parameters obj act dir sp1 sp2 folder vol affine_matrix move scale cfg res flux,
    gather_parameters (objects w) = ok parameters
    /\ bpy.find_object "source" (objects w) = Some obj
    /\ bpy.active_object w = Some act
    /\ quaternion2euler (bpy.quaternion_list (rotation_quaternion act)) = ok dir
    /\ source_array obj "srcparam1" = ok sp1
    /\ source_array obj "srcparam2" = ok sp2
    /\ workfolder w = Some folder
    /\ folder !! "ImageMesh.mat" = Some (MatFile (Some vol) (Some affine_matrix))
    /\ affine_move affine_matrix = ok move
    /\ affine_scale affine_matrix = ok scale
    /\ make_cfg self obj vol parameters (vector_array (location obj)) dir sp1 sp2 move scale
       = ok cfg
    /\ pmcx_run cfg = ok res
    /\ plot_flux res = ok flux
    /\ w' = mkWorld [] None
              (Directory (saved_folder folder parameters cfg res flux affine_matrix))
              (trace w ++ prepare_events (objects w) parameters cfg res flux affine_matrix).
Proof.
  unfold preparemmc. intros H.
  apply bind_M_ok in H as (objs & w1 & H1 & H). apply reads_ok in H1 as [-> ->].
  apply bind_M_ok in H as (parameters & w1 & H1 & H). apply lift_ok in H1 as [Hpar ->].
  apply bind_M_ok in H as (obj & w1 & H1 & H). apply objects_getitem_ok in H1 as [Hobj ->].
  apply bind_M_ok in H as (u1 & w1 & H1 & H).
  apply set_context_rotation_mode_ok in H1 as (act & Hact & ->).
  apply bind_M_ok in H as (direction & w2 & H1 & H).
  apply context_rotation_quaternion_ok in H1 as (act' & Hact' & -> & ->).
  apply bind_M_ok in H as (dir & w2 & H1 & H). apply lift_ok in H1 as [Hdir ->].
  apply bind_M_ok in H as (sp1 & w2 & H1 & H). apply lift_ok in H1 as [Hsp1 ->].
  apply bind_M_ok in H as (sp2 & w2 & H1 & H). apply lift_ok in H1 as [Hsp2 ->].
  apply bind_M_ok in H as (isd & w2 & H1 & H). apply reads_ok in H1 as [-> ->].
  assert (Hact2 : act' = bpy.with_rotation_mode "QUATERNION" act).
  { unfold bpy.active_object in Hact, Hact'. cbn [context_object objects] in Hact'.
    destruct (context_object w) as [n |]; [| discriminate].
    rewrite (find_object_set_mode n _ _ act Hact) in Hact'. congruence. }
  subst act'. cbn [bpy.with_rotation_mode rotation_quaternion] in Hdir.
  assert (Hfolder : forall d, workpath w = Directory d -> workfolder w = Some d)
    by (intros d Hd; unfold workfolder; rewrite Hd; reflexivity).
  unfold workfolder in H. cbn [workpath] in H.
  destruct (workpath w) as [| | folder] eqn:Hpath; cbn [negb] in H.
  { (* nothing at the path: line 101 creates the folder, line 103 raises *)
    apply bind_M_ok in H as (u2 & w2 & H1 & H).
    unfold fs.makedirs in H1. cbn [workpath] in H1.
    inversion H1; subst w2. clear H1.
    apply bind_M_ok in H as (mat & w2 & H1 & H).
    apply loadmat_ok in H1 as (d & Hd & Hlook & _).
    cbn [workpath] in Hd. inversion Hd; subst d.
    rewrite lookup_empty in Hlook. discriminate. }
  { (* a file at the path: line 101 raises *)
    apply bind_M_ok in H as (u2 & w2 & H1 & H).
    unfold fs.makedirs in H1. cbn [workpath] in H1. inversion H1. }
  specialize (Hfolder folder eq_refl).
  apply bind_M_ok in H as (u2 & w2 & H1 & H).
  unfold unit_M in H1. inversion H1; subst w2. clear H1.
  apply bind_M_ok in H as (mat & w2 & H1 & H).
  apply loadmat_ok in H1 as (d & Hd & Hmat & ->).
  cbn [workpath] in Hd. inversion Hd; subst d. clear Hd.
  apply bind_M_ok in H as (vol & w2 & H1 & H). apply lift_ok in H1 as [Hvol ->].
  apply getvar_ok in Hvol.
  apply bind_M_ok in H as (mat' & w2 & H1 & H).
  apply loadmat_ok in H1 as (d & Hd & Hmat' & ->).
  cbn [workpath] in Hd. inversion Hd; subst d. clear Hd.
  apply bind_M_ok in H as (affine_matrix & w2 & H1 & H). apply lift_ok in H1 as [Haff ->].
  apply getvar_ok in Haff.
  assert (Hfile : folder !! "ImageMesh.mat" = Some (MatFile (Some vol) (Some affine_matrix))).
  { rewrite Hmat in Hmat'. injection Hmat' as Hi Hs. rewrite Hmat. congruence. }
  apply bind_M_ok in H as (move & w2 & H1 & H). apply lift_ok in H1 as [Hmove ->].
  apply bind_M_ok in H as (scale & w2 & H1 & H). apply lift_ok in H1 as [Hscale ->].
  apply bind_M_ok in H as (cfg & w2 & H1 & H). apply lift_ok in H1 as [Hcfg ->].
  apply bind_M_ok in H as (u3 & w2 & H1 & H).
  apply save_ok in H1 as (d & Hd & ->).
  cbn [workpath] in Hd. inversion Hd; subst d. clear Hd.
  cbn [objects context_object workpath trace] in H.
  apply bind_M_ok in H as (res & w2 & H1 & H).
  apply run_ok in H1 as (Hres & ->).
  cbn [objects context_object workpath trace] in H.
  apply bind_M_ok in H as (u4 & w2 & H1 & H).
  apply save_ok in H1 as (d & Hd & ->).
  cbn [workpath] in Hd. inversion Hd; subst d. clear Hd.
  cbn [objects context_object workpath trace] in H.
  apply bind_M_ok in H as (flux & w2 & H1 & H). apply lift_ok in H1 as [Hflux ->].
  apply bind_M_ok in H as (u5 & w2 & H1 & H).
  apply save_ok in H1 as (d & Hd & ->).
  cbn [workpath] in Hd. inversion Hd; subst d. clear Hd.
  cbn [objects context_object workpath trace] in H.
  apply bind_M_ok in H as (u6 & w2 & H1 & H).
  unfold bpy.remove_all in H1. cbn [objects] in H1. inversion H1; subst w2. clear H1.
  apply bind_M_ok in H as (u7 & w2 & H1 & H).
  apply log_ok in H1. subst w2.
  apply bind_M_ok in H as (u8 & w2 & H1 & H).
  apply log_ok in H1. subst w2.
  apply log_ok in H. cbn [objects context_object workpath trace] in H.
  exists parameters, obj, act, dir, sp1, sp2, folder, vol, affine_matrix, move, scale,
    cfg, res, flux.
  do 13 (split; [assumption || reflexivity |]).
  subst w'.
  match goal with
  | |- context [bpy.remove_loop ?l ?w0] =>
      pose proof (remove_loop_all w0) as Hobjs;
      pose proof (remove_loop_context l w0) as Hctx;
      pose proof (remove_loop_workpath l w0) as Hwf;
      pose proof (remove_loop_trace l w0) as Htr
  end.
  cbn [objects context_object workpath trace] in Hobjs, Hctx, Hwf, Htr.
  rewrite Hobjs, Hctx, Hwf, Htr. clear Hobjs Hctx Hwf Htr.
  rewrite map_name_set_mode.
  f_equal.
  - unfold bpy.active_object in Hact.
    destruct (context_object w) as [n |]; [| discriminate].
    apply find_object_name in Hact as [Hn Hin].
    replace (bpy.named_in (map name (objects w)) n) with true; [reflexivity |].
    symmetry. subst n. apply named_in_In. exact Hin.
  - rewrite <- !app_assoc. reflexivity.
Qed.

End RunFacts.

(** ** The direction vector *)

Section DirectionClaims.

Local Open Scope R_scope.

(** For a unit quaternion the standard matrix is the rotation
    [v |-> q v q*] of Hamilton's quaternions. *)
Lemma standard_rotation_matrix_hamilton (w x y z a b c : R) :
  w * w + x * x + y * y + z * z = 1 ->
  matvec (standard_rotation_matrix w x y z) [a; b; c] = qrotate (Quat w x y z) [a; b; c].
Proof.
  intros Hunit. unfold matvec, standard_rotation_matrix, qrotate, qmul, qconj.
  cbn [map zip_with fold_right qw qx qy qz].
  rewrite <- Hunit.
  f_equal; [ring | f_equal; [ring | f_equal; ring]].
Qed.

(** C3. For every quaternion [(w, x, y, z)], [quaternion2euler] returns the
    product of the standard quaternion rotation matrix with the column
    [(0, 0, -1)]; for the identity quaternion [(1, 0, 0, 0)] that is
    [[0, 0, -1]]. *)
Theorem quaternion2euler_rotates_minus_z (w x y z : R) :
  quaternion2euler [w; x; y; z]
  = ok (matvec (standard_rotation_matrix w x y z) [0; 0; -1])
  /\ quaternion2euler [1; 0; 0; 0] = ok [0; 0; -1].
Proof.
  split.
  - rewrite quaternion2euler_closed.
    unfold matvec, standard_rotation_matrix. cbn [map zip_with fold_right].
    unfold ok. do 2 f_equal; [ring | f_equal; [ring | f_equal; ring]].
  - rewrite quaternion2euler_closed.
    unfold ok. do 2 f_equal; [ring | f_equal; [ring | f_equal; ring]].
Qed.

(** The squared length of the returned vector, for any quaternion, in the
    arithmetic of real numbers: it is off 1 by a multiple of what the
    quaternion's own squared length is off 1. *)
Lemma quaternion2euler_norm2 (w x y z : R) :
  exists d, quaternion2euler [w; x; y; z] = ok d /\
    norm2 d = 1 + 4 * (x ^ 2 + y ^ 2) * (w ^ 2 + x ^ 2 + y ^ 2 + z ^ 2 - 1).
Proof.
  eexists. split; [apply quaternion2euler_closed |].
  unfold norm2. cbn [map fold_right]. ring.
Qed.

(** In the arithmetic of real numbers a quaternion of length 1 gives a
    direction of length 1.  The components the operator receives are
    doubles, widened from the host's single-precision quaternion: they have
    length 1 up to rounding only, and so has the direction. *)
Lemma unit_norm_over_reals (w x y z : R) :
  w ^ 2 + x ^ 2 + y ^ 2 + z ^ 2 = 1 ->
  exists d, quaternion2euler [w; x; y; z] = ok d /\ norm d = 1.
Proof.
  intros Hunit.
  destruct (quaternion2euler_norm2 w x y z) as (d & Hd & Hnorm).
  exists d. split; [exact Hd |].
  unfold norm. rewrite Hnorm, Hunit.
  replace (1 + 4 * (x ^ 2 + y ^ 2) * (1 - 1)) with 1 by ring.
  apply sqrt_1.
Qed.

End DirectionClaims.

(** ** The optical parameters *)

Section ParameterClaims.

Lemma rbind_ok {A B : Type} (r : result A) (k : A -> result B) (b : B) :
  rbind r k = ok b -> exists a, r = ok a /\ k a = ok b.
Proof.
  destruct r as [e | a]; simpl; [discriminate |].
  intros H. exists a. split; [reflexivity | exact H].
Qed.

(** The loop of the [except] block appends, to what the list holds already,
    what the specification's wording collects. *)
Lemma fallback_loop_collect (objs : list Object) (parameters : list (list idprop)) :
  fallback_loop objs parameters
  = rbind (collect four_parameters
             (List.filter (fun obj => bpy.contains obj "mua") objs))
          (fun rest => ok (parameters ++ rest)).
Proof.
  revert parameters.
  induction objs as [| obj objs IH]; intros parameters.
  - simpl. rewrite app_nil_r. reflexivity.
  - cbn [fallback_loop List.filter].
    destruct (bpy.contains obj "mua"); cbn [negb]; [| apply IH].
    cbn [collect]. unfold four_parameters.
    destruct (bpy.getitem obj "mua") as [e | mua]; [reflexivity |].
    destruct (bpy.getitem obj "mus") as [e | mus]; [reflexivity |].
    destruct (bpy.getitem obj "g") as [e | g]; [reflexivity |].
    destruct (bpy.getitem obj "n") as [e | n]; [reflexivity |].
    cbn [rbind ok]. rewrite IH.
    destruct (collect _ _) as [e | rest]; [reflexivity |].
    cbn [rbind ok]. rewrite <- app_assoc. reflexivity.
Qed.

(** What [gather_parameters] returns when the [try] block raised: the
    entries appended before the exception stay in the list. *)
Lemma gather_parameters_except (objs : list Object) (appended : list (list idprop))
    (e : exn) :
  try_iso2mesh objs [] = (appended, Some e) ->
  gather_parameters objs
  = rbind (fallback_spec objs) (fun rest => ok (appended ++ rest)).
Proof.
  intros Htry. unfold gather_parameters, fallback_spec. rewrite Htry.
  apply fallback_loop_collect.
Qed.

(** Without an object named [Iso2Mesh] the [try] block raises at once. *)
Lemma try_iso2mesh_missing (objs : list Object) :
  bpy.find_object "Iso2Mesh" objs = None ->
  try_iso2mesh objs [] = ([], Some KeyError).
Proof. intros H. unfold try_iso2mesh. rewrite H. reflexivity. Qed.

(** The three ways in which the [try] block raises before it has appended
    anything: no object, no mesh data, a first property without
    [to_list]. *)
Lemma try_iso2mesh_raises_at_once (objs : list Object) :
  (bpy.find_object "Iso2Mesh" objs = None ->
   try_iso2mesh objs [] = ([], Some KeyError))
  /\ (forall obj, bpy.find_object "Iso2Mesh" objs = Some obj -> data obj = None ->
      try_iso2mesh objs [] = ([], Some AttributeError))
  /\ (forall obj key v rest e,
        bpy.find_object "Iso2Mesh" objs = Some obj ->
        data obj = Some ((key, v) :: rest) ->
        bpy.to_list v = inl e ->
        try_iso2mesh objs [] = ([], Some e)).
Proof.
  split; [apply try_iso2mesh_missing |]. split.
  - intros obj Hobj Hdata. unfold try_iso2mesh. rewrite Hobj, Hdata. reflexivity.
  - intros obj key v rest e Hobj Hdata Hv. unfold try_iso2mesh. rewrite Hobj, Hdata.
    cbn [map fst iso2mesh_loop List.find]. rewrite String.eqb_refl.
    cbn [snd]. rewrite Hv. reflexivity.
Qed.

(** C10 at [scene_mixed_mesh], where the [try] block raises on the second
    mesh property of [Iso2Mesh], after the first was appended.  The
    [except] block does not start from an empty list, so the entry of the
    [try] block stays in front of the entry of the fallback: the list that
    comes out is not the list built from the scene objects. *)
Theorem gather_parameters_keeps_appended :
  try_iso2mesh (objects Examples.scene_mixed_mesh) []
  = ([[IDNum 0; IDNum 0; IDNum 1; IDNum 1]], Some AttributeError)
  /\ gather_parameters (objects Examples.scene_mixed_mesh)
     = ok [ [IDNum 0; IDNum 0; IDNum 1; IDNum 1];
            [IDNum (1 / 100); IDNum 1; IDNum (9 / 10); IDNum (137 / 100)] ]
  /\ fallback_spec (objects Examples.scene_mixed_mesh)
     = ok [ [IDNum (1 / 100); IDNum 1; IDNum (9 / 10); IDNum (137 / 100)] ]
  /\ gather_parameters (objects Examples.scene_mixed_mesh)
     <> fallback_spec (objects Examples.scene_mixed_mesh).
Proof.
  assert (Hg : gather_parameters (objects Examples.scene_mixed_mesh)
               = ok [ [IDNum 0; IDNum 0; IDNum 1; IDNum 1];
                      [IDNum (1 / 100); IDNum 1; IDNum (9 / 10); IDNum (137 / 100)] ])
    by reflexivity.
  assert (Hf : fallback_spec (objects Examples.scene_mixed_mesh)
               = ok [ [IDNum (1 / 100); IDNum 1; IDNum (9 / 10); IDNum (137 / 100)] ])
    by reflexivity.
  split; [reflexivity |]. split; [exact Hg |]. split; [exact Hf |].
  rewrite Hg, Hf. unfold ok. intros Heq.
  apply (f_equal (fun r => match r with inr l => length l | inl _ => 0%nat end)) in Heq.
  simpl in Heq. discriminate Heq.
Qed.

(** X22. When the [try] block raises, the parameter list is what that
    block had appended before the exception, followed by the fallback
    entries: all scene objects except the last, those lacking ["mua"]
    skipped, the list [[mua, mus, g, n]] of each other one, in scene
    order.  When nothing had been appended (no object named [Iso2Mesh], no
    mesh data, or a first mesh property that is not an array) it is the
    fallback list alone. *)
Theorem gather_parameters_when_try_raises (objs : list Object)
    (appended : list (list idprop)) (e : exn) :
  try_iso2mesh objs [] = (appended, Some e) ->
  gather_parameters objs
  = rbind (fallback_spec objs) (fun rest => ok (appended ++ rest))
  /\ (appended = [] -> gather_parameters objs = fallback_spec objs).
Proof.
  intros Htry. rewrite (gather_parameters_except objs appended e Htry).
  split; [reflexivity |].
  intros ->. destruct (fallback_spec objs) as [e' | rest]; reflexivity.
Qed.

(** X22 on the scene of two regions and a source, which has no
    [Iso2Mesh]. *)
Lemma gather_parameters_when_try_raises_witness :
  try_iso2mesh (objects Examples.scene) [] = ([], Some KeyError)
  /\ gather_parameters (objects Examples.scene) = fallback_spec (objects Examples.scene).
Proof.
  assert (H : try_iso2mesh (objects Examples.scene) [] = ([], Some KeyError)) by reflexivity.
  split; [exact H |].
  exact (proj2 (gather_parameters_when_try_raises (objects Examples.scene) [] KeyError H)
           eq_refl).
Defined.

End ParameterClaims.

(** ** The run *)

Section RunClaims.

Variable pmcx_run : Cfg -> result Res.

Lemma solver_calls_app (a b : list event) :
  solver_calls (a ++ b) = solver_calls a ++ solver_calls b.
Proof. unfold solver_calls. apply flat_map_app. Qed.

Lemma saves_app (a b : list event) : saves (a ++ b) = saves a ++ saves b.
Proof. unfold saves. apply flat_map_app. Qed.

Lemma solver_calls_removes (names : list string) :
  solver_calls (map EvRemove names) = [].
Proof. induction names as [| n names IH]; [reflexivity | exact IH]. Qed.

Lemma saves_removes (names : list string) : saves (map EvRemove names) = [].
Proof. induction names as [| n names IH]; [reflexivity | exact IH]. Qed.

Lemma solver_calls_prepare_events objs parameters cfg res flux affine_matrix :
  solver_calls (prepare_events objs parameters cfg res flux affine_matrix) = [cfg].
Proof.
  unfold prepare_events. rewrite !solver_calls_app, solver_calls_removes. reflexivity.
Qed.

Lemma saves_prepare_events objs parameters cfg res flux affine_matrix :
  saves (prepare_events objs parameters cfg res flux affine_matrix)
  = [ ("mmcinfo.json", SInfo parameters cfg);
      ("mcx_result.json", SResult res);
      ("plot_result.json", SPlot flux affine_matrix) ].
Proof.
  unfold prepare_events. rewrite !saves_app, saves_removes. reflexivity.
Qed.

(** The fields of [cfg], read off [make_cfg]. *)
Lemma make_cfg_ok (self : Operator) (obj : Object) (vol : volume)
    (parameters : list (list idprop)) (location : np.array1) (dir : list R)
    (srcparam1 srcparam2 : pyarray) (move scale : np.array1) (cfg : Cfg) :
  make_cfg self obj vol parameters location dir srcparam1 srcparam2 move scale = ok cfg ->
  exists srctype diff srcpos p1 p2 u s0 unitinmm,
    bpy.getitem obj "srctype" = ok srctype
    /\ np.subtract location move = ok diff
    /\ np.divide diff scale = ok srcpos
    /\ divide_pyarray srcparam1 (np.append scale 1) = ok p1
    /\ divide_pyarray srcparam2 (np.append scale 1) = ok p2
    /\ bpy.getitem obj "unitinmm" = ok u
    /\ np.getitem scale 0 = ok s0
    /\ multiply_prop u s0 = ok unitinmm
    /\ cfg = mkCfg vol parameters srctype srcpos dir p1 p2 (nphoton self) unitinmm 0
               (tend self) (tstep self) (isreflect self) (isnormalized self)
               (method self) (outputtype self) (basisorder self) (debuglevel self)
               (gpuid self).
Proof.
  unfold make_cfg. intros H.
  apply rbind_ok in H as (srctype & Hsrctype & H).
  apply rbind_ok in H as (diff & Hdiff & H).
  apply rbind_ok in H as (srcpos & Hsrcpos & H).
  apply rbind_ok in H as (p1 & Hp1 & H).
  apply rbind_ok in H as (p2 & Hp2 & H).
  apply rbind_ok in H as (srctype' & Hsrctype' & H).
  apply rbind_ok in H as (u & Hu & H).
  apply rbind_ok in H as (s0 & Hs0 & H).
  apply rbind_ok in H as (unitinmm & Hunit & H).
  exists srctype', diff, srcpos, p1, p2, u, s0, unitinmm.
  repeat (split; [assumption |]).
  unfold ok in H. injection H as <-. reflexivity.
Qed.

(** [execute] prints, runs [preparemmc] and answers [{"FINISHED"}]. *)
Lemma execute_ok (self : Operator) (w w' : World) (r : gset string) :
  execute pmcx_run self w = (inr r, w') ->
  r = {[ "FINISHED" ]}
  /\ preparemmc pmcx_run self
       (mkWorld (objects w) (context_object w) (workpath w)
          (trace w ++ [EvPrint "Begin to run MMC source transport simulation ..."]))
     = (inr tt, w').
Proof.
  unfold execute. intros H.
  apply bind_M_ok in H as (u & w1 & H1 & H). apply log_ok in H1. subst w1.
  apply bind_M_ok in H as (u' & w1 & H1 & H).
  unfold unit_M, ok in H. injection H as <- ->.
  destruct u'. split; [reflexivity | exact H1].
Qed.

(** Every step of a run that does not raise. *)
Lemma execute_steps (self : Operator) (w w' : World) (r : gset string) :
  execute pmcx_run self w = (inr r, w') ->
  r = {[ "FINISHED" ]} /\
  exists parameters obj act dir sp1 sp2 folder vol affine_matrix move scale cfg res flux,
    gather_parameters (objects w) = ok parameters
    /\ bpy.find_object "source" (objects w) = Some obj
    /\ bpy.active_object w = Some act
    /\ quaternion2euler (bpy.quaternion_list (rotation_quaternion act)) = ok dir
    /\ source_array obj "srcparam1" = ok sp1
    /\ source_array obj "srcparam2" = ok sp2
    /\ workfolder w = Some folder
    /\ folder !! "ImageMesh.mat" = Some (MatFile (Some vol) (Some affine_matrix))
    /\ affine_move affine_matrix = ok move
    /\ affine_scale affine_matrix = ok scale
    /\ make_cfg self obj vol parameters (vector_array (location obj)) dir sp1 sp2 move scale
       = ok cfg
    /\ pmcx_run cfg = ok res
    /\ plot_flux res = ok flux
    /\ w' = mkWorld [] None
              (Directory (saved_folder folder parameters cfg res flux affine_matrix))
              (trace w
               ++ EvPrint "Begin to run MMC source transport simulation ..."
                  :: prepare_events (objects w) parameters cfg res flux affine_matrix).
Proof.
  intros H. apply execute_ok in H as [Hr H]. split; [exact Hr |].
  apply preparemmc_ok in H
    as (parameters & obj & act & dir & sp1 & sp2 & folder & vol & affine_matrix & move
        & scale & cfg & res & flux & H).
  cbn [objects context_object workpath trace] in H.
  unfold bpy.active_object in H. cbn [objects context_object] in H.
  exists parameters, obj, act, dir, sp1, sp2, folder, vol, affine_matrix, move, scale,
    cfg, res, flux.
  destruct H as (H1 & H2 & H3 & H4 & H5 & H6 & H7 & H8 & H9 & H10 & H11 & H12 & H13 & H14).
  repeat (split; [assumption |]).
  rewrite H14. rewrite <- app_assoc. reflexivity.
Qed.

Lemma saved_folder_lookup (folder : gmap string file) parameters cfg res flux affine_matrix :
  saved_folder folder parameters cfg res flux affine_matrix !! "mmcinfo.json"
  = Some (JsonFile (SInfo parameters cfg))
  /\ saved_folder folder parameters cfg res flux affine_matrix !! "mcx_result.json"
     = Some (JsonFile (SResult res))
  /\ saved_folder folder parameters cfg res flux affine_matrix !! "plot_result.json"
     = Some (JsonFile (SPlot flux affine_matrix))
  /\ (forall f : string,
        f <> "mmcinfo.json" -> f <> "mcx_result.json" -> f <> "plot_result.json" ->
        saved_folder folder parameters cfg res flux affine_matrix !! f = folder !! f).
Proof.
  unfold saved_folder. repeat split.
  - rewrite !lookup_insert_ne by discriminate. apply lookup_insert_eq.
  - rewrite lookup_insert_ne by discriminate. apply lookup_insert_eq.
  - apply lookup_insert_eq.
  - intros f H1 H2 H3. rewrite !lookup_insert_ne by congruence. reflexivity.
Qed.

Lemma affine_move_ok (affine_matrix : np.array2) (move : np.array1) :
  affine_move affine_matrix = ok move ->
  exists tx ty tz,
    np.getitem2 affine_matrix 0 3 = ok tx
    /\ np.getitem2 affine_matrix 1 3 = ok ty
    /\ np.getitem2 affine_matrix 2 3 = ok tz
    /\ move = [tx; ty; tz].
Proof.
  unfold affine_move. intros H.
  apply rbind_ok in H as (tx & Hx & H).
  apply rbind_ok in H as (ty & Hy & H).
  apply rbind_ok in H as (tz & Hz & H).
  exists tx, ty, tz. unfold ok in H. injection H as <-. repeat split; assumption.
Qed.

Lemma affine_scale_ok (affine_matrix : np.array2) (scale : np.array1) :
  affine_scale affine_matrix = ok scale ->
  exists sx sy sz,
    np.getitem2 affine_matrix 0 0 = ok sx
    /\ np.getitem2 affine_matrix 1 1 = ok sy
    /\ np.getitem2 affine_matrix 2 2 = ok sz
    /\ scale = [sx; sy; sz].
Proof.
  unfold affine_scale. intros H.
  apply rbind_ok in H as (sx & Hx & H).
  apply rbind_ok in H as (sy & Hy & H).
  apply rbind_ok in H as (sz & Hz & H).
  exists sx, sy, sz. unfold ok in H. injection H as <-. repeat split; assumption.
Qed.

(** A source parameter of four components, divided by [(sx, sy, sz, 1)]. *)
Lemma srcparam_rescaled (obj : Object) (key : string) (sp : pyarray)
    (sx sy sz a b c d : R) (p : np.array1) :
  source_array obj key = ok sp ->
  divide_pyarray sp (np.append [sx; sy; sz] 1) = ok p ->
  props obj !! key = Some (IDArray [a; b; c; d]) ->
  p = [(a / sx)%R; (b / sy)%R; (c / sz)%R; (d / 1)%R].
Proof.
  unfold source_array, bpy.getitem. intros Hsp Hp Hprop.
  rewrite Hprop in Hsp. cbn [rbind ok array_of_prop] in Hsp.
  unfold ok in Hsp. injection Hsp as <-.
  cbn in Hp. unfold ok in Hp. injection Hp as <-. reflexivity.
Qed.

(** What the plotted flux is, read off [plot_flux]. *)
Lemma plot_flux_ok (res : Res) (flux : array3) :
  plot_flux res = ok flux ->
  exists f stat normalizer n1 n2 n3 n4,
    res_flux res = Some f
    /\ res_stat res = Some stat
    /\ stat !! "normalizer" = Some normalizer
    /\ shape4 f = (n1, n2, n3, n4)
    /\ n4 <> 0%nat
    /\ flux = mkArray3 (n1, n2, n3)
                (fun i j k =>
                   np.log10 (np.add (np.true_divide (Finite (at4 f i j k 0)) normalizer) 1)).
Proof.
  unfold plot_flux. intros H.
  apply rbind_ok in H as (f & Hf & H). apply getvar_ok in Hf.
  apply rbind_ok in H as (f0 & Hf0 & H).
  apply rbind_ok in H as (stat & Hstat & H). apply getvar_ok in Hstat.
  apply rbind_ok in H as (normalizer & Hn & H). apply getvar_ok in Hn.
  unfold first_gate in Hf0.
  destruct (shape4 f) as [[[n1 n2] n3] n4] eqn:Hshape.
  destruct (Nat.eqb n4 0) eqn:Hn4; [discriminate |].
  apply Nat.eqb_neq in Hn4.
  unfold ok in Hf0, H. injection Hf0 as <-. injection H as <-.
  exists f, stat, normalizer, n1, n2, n3, n4.
  repeat (split; [assumption |]). reflexivity.
Qed.





(** The three files of a run that does not raise, and the flux among them. *)
Lemma execute_saved (self : Operator) (w w' : World) (r : gset string) :
  execute pmcx_run self w = (inr r, w') ->
  exists parameters cfg res f stat normalizer flux folder vol affine_matrix n1 n2 n3 n4,
    gather_parameters (objects w) = ok parameters
    /\ workfolder w = Some folder
    /\ folder !! "ImageMesh.mat" = Some (MatFile (Some vol) (Some affine_matrix))
    /\ cfg_prop cfg = parameters
    /\ pmcx_run cfg = ok res
    /\ res_flux res = Some f
    /\ res_stat res = Some stat
    /\ stat !! "normalizer" = Some normalizer
    /\ shape4 f = (n1, n2, n3, n4)
    /\ flux = mkArray3 (n1, n2, n3)
                (fun i j k =>
                   np.log10 (np.add (np.true_divide (Finite (at4 f i j k 0)) normalizer) 1))
    /\ w' = mkWorld [] None
              (Directory (saved_folder folder parameters cfg res flux affine_matrix))
              (trace w
               ++ EvPrint "Begin to run MMC source transport simulation ..."
                  :: prepare_events (objects w) parameters cfg res flux affine_matrix).
Proof.
  intros H. apply execute_steps in H as [_ H].
  destruct H as (parameters & obj & act & dir & sp1 & sp2 & folder & vol & affine_matrix
                 & move & scale & cfg & res & flux & H).
  destruct H as (H1 & H2 & H3 & H4 & H5 & H6 & H7 & H8 & H9 & H10 & H11 & H12 & H13 & ->).
  apply plot_flux_ok in H13
    as (f & stat & normalizer & n1 & n2 & n3 & n4 & Hf & Hstat & Hn & Hshape & Hn4 & Hflux).
  exists parameters, cfg, res, f, stat, normalizer, flux, folder, vol, affine_matrix,
    n1, n2, n3, n4.
  split; [exact H1 |]. split; [exact H7 |]. split; [exact H8 |]. split.
  { apply make_cfg_ok in H11 as (? & ? & ? & ? & ? & ? & ? & ? & ? & ? & ? & ? & ? & ? & ? & ? & ->).
    reflexivity. }
  repeat (split; [assumption |]). reflexivity.
Qed.

(** A run that does not raise found the work folder in place. *)
Lemma execute_needs_folder (self : Operator) (w : World) :
  workfolder w = None -> exists e, fst (execute pmcx_run self w) = inl e.
Proof.
  intros Hnone.
  destruct (execute pmcx_run self w) as [[e | r] w'] eqn:Hrun; [exists e; reflexivity |].
  apply execute_steps in Hrun as (_ & ? & ? & ? & ? & ? & ? & folder & ? & ? & ? & ? & ? & ? & ?
                                  & Hrun).
  destruct Hrun as (_ & _ & _ & _ & _ & _ & Hfolder & _). congruence.
Qed.

(** Lines 66-96 of a run whose scene has its parameters, a source and an
    active object: what is left of [execute] is lines 99-131, started in
    the environment [w1]. *)
Lemma execute_from_line_99 (self : Operator) (w : World)
    (parameters : list (list idprop)) (obj act : Object) (dir : list R)
    (sp1 sp2 : pyarray) (e : exn) (w' : World) :
  gather_parameters (objects w) = ok parameters ->
  bpy.find_object "source" (objects w) = Some obj ->
  bpy.active_object w = Some act ->
  quaternion2euler (bpy.quaternion_list (rotation_quaternion act)) = ok dir ->
  source_array obj "srcparam1" = ok sp1 ->
  source_array obj "srcparam2" = ok sp2 ->
  let w1 := mkWorld (quaternion_mode act (objects w)) (context_object w) (workpath w)
              (trace (begun w)) in
  bind_M fs.isdir
    (fun exists_ => bind_M (if negb exists_ then fs.makedirs else unit_M tt)
       (fun _ => fs.loadmat "ImageMesh.mat")) w1 = (inl e, w') ->
  execute pmcx_run self w = (inl e, w').
Proof.
  intros Hpar Hobj Hact Hdir Hsp1 Hsp2 w1 Hfolder.
  assert (Hact1 : bpy.active_object w1 = Some (bpy.with_rotation_mode "QUATERNION" act)).
  { unfold bpy.active_object in *. cbn [w1 context_object objects].
    destruct (context_object w) as [n |]; [| discriminate].
    apply find_object_set_mode. exact Hact. }
  unfold execute.
  rewrite (bind_M_inr _ _ w tt (begun w)) by reflexivity.
  apply bind_M_inl. unfold preparemmc.
  rewrite (bind_M_inr _ _ (begun w) (objects w) (begun w)) by reflexivity.
  rewrite (bind_M_inr _ _ (begun w) parameters (begun w))
    by (unfold lift; cbn [begun objects]; rewrite Hpar; reflexivity).
  rewrite (bind_M_inr _ _ (begun w) obj (begun w))
    by (unfold bpy.objects_getitem; cbn [begun objects]; rewrite Hobj; reflexivity).
  rewrite (bind_M_inr _ _ (begun w) tt w1)
    by (unfold bpy.set_context_rotation_mode;
        change (bpy.active_object (begun w)) with (bpy.active_object w);
        rewrite Hact; reflexivity).
  rewrite (bind_M_inr _ _ w1 (bpy.quaternion_list (rotation_quaternion act)) w1)
    by (unfold bpy.context_rotation_quaternion; rewrite Hact1; reflexivity).
  rewrite (bind_M_inr _ _ w1 dir w1) by (unfold lift; rewrite Hdir; reflexivity).
  rewrite (bind_M_inr _ _ w1 sp1 w1) by (unfold lift; rewrite Hsp1; reflexivity).
  rewrite (bind_M_inr _ _ w1 sp2 w1) by (unfold lift; rewrite Hsp2; reflexivity).
  apply bind_M_raises in Hfolder as [H | (isd & w2 & H1 & H)];
    [apply bind_M_inl; exact H |].
  rewrite (bind_M_inr _ _ w1 isd w2 H1). cbv beta.
  apply bind_M_raises in H as [H | (u & w3 & H2 & H)];
    [apply bind_M_inl; exact H |].
  rewrite (bind_M_inr _ _ w2 u w3 H2).
  apply bind_M_inl. exact H.
Qed.

(** Lines 99-103 where nothing is at the path of the work folder: the
    folder is created, empty, and reading [ImageMesh.mat] from it raises. *)
Lemma execute_in_missing_folder (self : Operator) (w : World)
    (parameters : list (list idprop)) (obj act : Object) (dir : list R)
    (sp1 sp2 : pyarray) :
  workpath w = Missing ->
  gather_parameters (objects w) = ok parameters ->
  bpy.find_object "source" (objects w) = Some obj ->
  bpy.active_object w = Some act ->
  quaternion2euler (bpy.quaternion_list (rotation_quaternion act)) = ok dir ->
  source_array obj "srcparam1" = ok sp1 ->
  source_array obj "srcparam2" = ok sp2 ->
  execute pmcx_run self w
  = (inl FileNotFoundError,
     mkWorld (quaternion_mode act (objects w)) (context_object w) (Directory ∅)
       (trace w ++ [ EvPrint "Begin to run MMC source transport simulation ...";
                     EvMakedirs; EvLoadmat "ImageMesh.mat" ])).
Proof.
  intros Hpath Hpar Hobj Hact Hdir Hsp1 Hsp2.
  apply (execute_from_line_99 self w parameters obj act dir sp1 sp2); try assumption.
  unfold bind_M, fs.isdir, reads, workfolder, fs.makedirs, fs.loadmat, ok, raise.
  cbn [workpath objects context_object trace begun]. rewrite Hpath.
  cbn [negb workpath objects context_object trace]. rewrite lookup_empty.
  rewrite <- !app_assoc. reflexivity.
Qed.

(** X14. Lines 99-103 when nothing is at the path of the work folder and
    lines 70-96 did not raise: the folder is created, empty, and reading
    [ImageMesh.mat] from it raises. *)
Theorem makedirs_when_folder_missing (self : Operator) (w : World)
    (parameters : list (list idprop)) (obj act : Object) (dir : list R)
    (sp1 sp2 : pyarray) :
  workpath w = Missing ->
  gather_parameters (objects w) = ok parameters ->
  bpy.find_object "source" (objects w) = Some obj ->
  bpy.active_object w = Some act ->
  quaternion2euler (bpy.quaternion_list (rotation_quaternion act)) = ok dir ->
  source_array obj "srcparam1" = ok sp1 ->
  source_array obj "srcparam2" = ok sp2 ->
  fst (execute pmcx_run self w) = inl FileNotFoundError
  /\ workfolder (snd (execute pmcx_run self w)) = Some ∅
  /\ trace (snd (execute pmcx_run self w))
     = trace w ++ [ EvPrint "Begin to run MMC source transport simulation ...";
                    EvMakedirs; EvLoadmat "ImageMesh.mat" ].
Proof.
  intros Hpath Hpar Hobj Hact Hdir Hsp1 Hsp2.
  rewrite (execute_in_missing_folder self w parameters obj act dir sp1 sp2) by assumption.
  repeat split.
Qed.

(** X20. Lines 99-101 when a file that is no directory has the name of the
    work folder and lines 70-96 did not raise: [os.makedirs] raises
    [FileExistsError]; no folder is created, no file is read or written and
    the solver is not called. *)
Theorem file_in_place_of_folder (self : Operator) (w : World)
    (parameters : list (list idprop)) (obj act : Object) (dir : list R)
    (sp1 sp2 : pyarray) :
  workpath w = RegularFile ->
  gather_parameters (objects w) = ok parameters ->
  bpy.find_object "source" (objects w) = Some obj ->
  bpy.active_object w = Some act ->
  quaternion2euler (bpy.quaternion_list (rotation_quaternion act)) = ok dir ->
  source_array obj "srcparam1" = ok sp1 ->
  source_array obj "srcparam2" = ok sp2 ->
  execute pmcx_run self w
  = (inl FileExistsError,
     mkWorld (quaternion_mode act (objects w)) (context_object w) RegularFile
       (trace w ++ [EvPrint "Begin to run MMC source transport simulation ..."])).
Proof.
  intros Hpath Hpar Hobj Hact Hdir Hsp1 Hsp2.
  apply (execute_from_line_99 self w parameters obj act dir sp1 sp2); try assumption.
  unfold bind_M, fs.isdir, reads, workfolder, fs.makedirs, ok, raise.
  cbn [workpath objects context_object trace begun]. rewrite Hpath.
  cbn [negb workpath]. reflexivity.
Qed.

(** X21. The pipeline of a run that does not raise, step by step.  The
    parameters are gathered from the scene (in a scene without [Iso2Mesh],
    from the objects that have ["mua"], the last object left out); the
    position, the type, the two parameters and the unit come from the
    object named ['source'], rescaled by the affine matrix of
    [ImageMesh.mat]; the direction comes from the active object; the other
    fields come from the dialog.  The dictionary they make is handed to
    the solver, once, between the first save and the second, and the run
    answers [{"FINISHED"}]. *)
Theorem execute_builds_cfg (self : Operator) (w w' : World) (r : gset string) :
  execute pmcx_run self w = (inr r, w') ->
  r = {[ "FINISHED" ]} /\
  exists parameters obj act folder vol affine_matrix move scale
         srctype diff srcpos dir sp1 sp2 p1 p2 u s0 unitinmm cfg res flux,
    gather_parameters (objects w) = ok parameters
    /\ (bpy.find_object "Iso2Mesh" (objects w) = None ->
        fallback_spec (objects w) = ok parameters)
    /\ bpy.find_object "source" (objects w) = Some obj
    /\ bpy.active_object w = Some act
    /\ workfolder w = Some folder
    /\ folder !! "ImageMesh.mat" = Some (MatFile (Some vol) (Some affine_matrix))
    /\ affine_move affine_matrix = ok move
    /\ affine_scale affine_matrix = ok scale
    /\ bpy.getitem obj "srctype" = ok srctype
    /\ np.subtract (vector_array (location obj)) move = ok diff
    /\ np.divide diff scale = ok srcpos
    /\ quaternion2euler (bpy.quaternion_list (rotation_quaternion act)) = ok dir
    /\ source_array obj "srcparam1" = ok sp1
    /\ divide_pyarray sp1 (np.append scale 1) = ok p1
    /\ source_array obj "srcparam2" = ok sp2
    /\ divide_pyarray sp2 (np.append scale 1) = ok p2
    /\ bpy.getitem obj "unitinmm" = ok u
    /\ np.getitem scale 0 = ok s0
    /\ multiply_prop u s0 = ok unitinmm
    /\ cfg = mkCfg vol parameters srctype srcpos dir p1 p2 (nphoton self) unitinmm 0
               (tend self) (tstep self) (isreflect self) (isnormalized self)
               (method self) (outputtype self) (basisorder self) (debuglevel self)
               (gpuid self)
    /\ pmcx_run cfg = ok res
    /\ plot_flux res = ok flux
    /\ trace w'
       = trace w
         ++ EvPrint "Begin to run MMC source transport simulation ..."
            :: prepare_events (objects w) parameters cfg res flux affine_matrix
    /\ solver_calls (trace w') = solver_calls (trace w) ++ [cfg]
    /\ saves (trace w')
       = saves (trace w)
         ++ [ ("mmcinfo.json", SInfo parameters cfg);
              ("mcx_result.json", SResult res);
              ("plot_result.json", SPlot flux affine_matrix) ].
Proof.
  intros H. apply execute_steps in H as [Hr H]. split; [exact Hr |].
  destruct H as (parameters & obj & act & dir & sp1 & sp2 & folder & vol & affine_matrix
                 & move & scale & cfg & res & flux & H).
  destruct H as (H1 & H2 & H3 & H4 & H5 & H6 & H7 & H8 & H9 & H10 & H11 & H12 & H13 & ->).
  apply make_cfg_ok in H11
    as (srctype & diff & srcpos & p1 & p2 & u & s0 & unitinmm
        & Hsrctype & Hdiff & Hsrcpos & Hp1 & Hp2 & Hu & Hs0 & Hunit & Hcfg).
  exists parameters, obj, act, folder, vol, affine_matrix, move, scale,
    srctype, diff, srcpos, dir, sp1, sp2, p1, p2, u, s0, unitinmm, cfg, res, flux.
  split; [exact H1 |]. split.
  { intros Hnone. rewrite <- H1.
    rewrite (gather_parameters_except _ [] KeyError (try_iso2mesh_missing _ Hnone)).
    destruct (fallback_spec (objects w)); reflexivity. }
  repeat (split; [assumption |]). cbn [trace].
  split; [reflexivity |]. split.
  - rewrite solver_calls_app. f_equal. apply solver_calls_prepare_events.
  - rewrite saves_app. f_equal. apply saves_prepare_events.
Qed.

(** The direction of [cfg] is computed from the quaternion of the active
    object, whichever object that is. *)
Lemma srcdir_of_active_object (self : Operator) (w w' : World) (r : gset string) :
  execute pmcx_run self w = (inr r, w') ->
  exists act cfg,
    bpy.active_object w = Some act
    /\ solver_calls (trace w') = solver_calls (trace w) ++ [cfg]
    /\ quaternion2euler (bpy.quaternion_list (rotation_quaternion act))
       = ok (cfg_srcdir cfg).
Proof.
  intros H. apply execute_steps in H as [_ H].
  destruct H as (parameters & obj & act & dir & sp1 & sp2 & folder & vol & affine_matrix
                 & move & scale & cfg & res & flux & H).
  destruct H as (H1 & H2 & H3 & H4 & H5 & H6 & H7 & H8 & H9 & H10 & H11 & H12 & H13 & ->).
  exists act, cfg. split; [exact H3 |]. cbn [trace]. split.
  - rewrite solver_calls_app. f_equal. apply solver_calls_prepare_events.
  - apply make_cfg_ok in H11 as (? & ? & ? & ? & ? & ? & ? & ? & ? & ? & ? & ? & ? & ? & ? & ? & ->).
    exact H4.
Qed.

(** C4. The source is rescaled componentwise: with [t] the translation
    column and [s] the diagonal of the affine matrix of [ImageMesh.mat],
    [cfg['srcpos']] is [(location - t) / s], a four-component [srcparam1]
    or [srcparam2] is divided by [(s_x, s_y, s_z, 1)], and a numeric
    [unitinmm] is multiplied by [s_x]. *)
Theorem source_rescaled (self : Operator) (w w' : World) (r : gset string) :
  execute pmcx_run self w = (inr r, w') ->
  exists obj folder vol affine_matrix cfg lx ly lz tx ty tz sx sy sz,
    bpy.find_object "source" (objects w) = Some obj
    /\ location obj = (lx, ly, lz)
    /\ workfolder w = Some folder
    /\ folder !! "ImageMesh.mat" = Some (MatFile (Some vol) (Some affine_matrix))
    /\ np.getitem2 affine_matrix 0 3 = ok tx
    /\ np.getitem2 affine_matrix 1 3 = ok ty
    /\ np.getitem2 affine_matrix 2 3 = ok tz
    /\ np.getitem2 affine_matrix 0 0 = ok sx
    /\ np.getitem2 affine_matrix 1 1 = ok sy
    /\ np.getitem2 affine_matrix 2 2 = ok sz
    /\ solver_calls (trace w') = solver_calls (trace w) ++ [cfg]
    /\ cfg_srcpos cfg = [((lx - tx) / sx)%R; ((ly - ty) / sy)%R; ((lz - tz) / sz)%R]
    /\ (forall a b c d, props obj !! "srcparam1" = Some (IDArray [a; b; c; d]) ->
          cfg_srcparam1 cfg = [(a / sx)%R; (b / sy)%R; (c / sz)%R; (d / 1)%R])
    /\ (forall a b c d, props obj !! "srcparam2" = Some (IDArray [a; b; c; d]) ->
          cfg_srcparam2 cfg = [(a / sx)%R; (b / sy)%R; (c / sz)%R; (d / 1)%R])
    /\ (forall u, props obj !! "unitinmm" = Some (IDNum u) ->
          cfg_unitinmm cfg = IDNum (u * sx)%R).
Proof.
  intros H. apply execute_steps in H as [_ H].
  destruct H as (parameters & obj & act & dir & sp1 & sp2 & folder & vol & affine_matrix
                 & move & scale & cfg & res & flux & H).
  destruct H as (H1 & H2 & H3 & H4 & H5 & H6 & H7 & H8 & H9 & H10 & H11 & H12 & H13 & ->).
  apply affine_move_ok in H9 as (tx & ty & tz & Htx & Hty & Htz & ->).
  apply affine_scale_ok in H10 as (sx & sy & sz & Hsx & Hsy & Hsz & ->).
  destruct (location obj) as [[lx ly] lz] eqn:Hloc.
  apply make_cfg_ok in H11
    as (srctype & diff & srcpos & p1 & p2 & u & s0 & unitinmm
        & Hsrctype & Hdiff & Hsrcpos & Hp1 & Hp2 & Hu & Hs0 & Hunit & ->).
  exists obj, folder, vol, affine_matrix.
  eexists. exists lx, ly, lz, tx, ty, tz, sx, sy, sz.
  repeat (split; [first [assumption | reflexivity] |]).
  cbn [trace]. split.
  { rewrite solver_calls_app. f_equal. apply solver_calls_prepare_events. }
  cbn [cfg_srcpos cfg_srcparam1 cfg_srcparam2 cfg_unitinmm].
  cbn in Hdiff. unfold ok in Hdiff. injection Hdiff as <-.
  cbn in Hsrcpos. unfold ok in Hsrcpos. injection Hsrcpos as <-.
  cbn in Hs0. unfold ok in Hs0. injection Hs0 as <-.
  split; [reflexivity |]. split; [| split].
  - intros a b c d Hprop. exact (srcparam_rescaled _ _ _ _ _ _ _ _ _ _ _ H5 Hp1 Hprop).
  - intros a b c d Hprop. exact (srcparam_rescaled _ _ _ _ _ _ _ _ _ _ _ H6 Hp2 Hprop).
  - intros u' Hprop. unfold bpy.getitem in Hu. rewrite Hprop in Hu.
    unfold ok in Hu. injection Hu as <-.
    cbn in Hunit. unfold ok in Hunit. injection Hunit as <-. reflexivity.
Qed.

(** C5, amended. The content of [mcx_result.json] is the value
    [pmcx.run(cfg)] returned, unchanged, and the flux of [plot_result.json]
    is computed from that value alone: entry by entry it is
    [log10(f / normalizer + 1)] of the first time gate of [res['flux']] with
    [normalizer = res['stat']['normalizer']].  The other numbers written
    are inputs passed on: the ['scale'] of [plot_result.json] is the affine
    matrix of [ImageMesh.mat], and [mmcinfo.json] holds the parameters
    gathered from the scene and the [cfg] built before the call. *)
Theorem result_is_solver_output (self : Operator) (w w' : World) (r : gset string) :
  execute pmcx_run self w = (inr r, w') ->
  exists parameters cfg res f stat normalizer flux folder vol affine_matrix folder'
         n1 n2 n3 n4,
    solver_calls (trace w') = solver_calls (trace w) ++ [cfg]
    /\ pmcx_run cfg = ok res
    /\ workfolder w' = Some folder'
    /\ folder' !! "mcx_result.json" = Some (JsonFile (SResult res))
    /\ folder' !! "plot_result.json" = Some (JsonFile (SPlot flux affine_matrix))
    /\ res_flux res = Some f
    /\ res_stat res = Some stat
    /\ stat !! "normalizer" = Some normalizer
    /\ shape4 f = (n1, n2, n3, n4)
    /\ shape3 flux = (n1, n2, n3)
    /\ (forall i j k,
          at3 flux i j k
          = np.log10 (np.add (np.true_divide (Finite (at4 f i j k 0)) normalizer) 1))
    /\ workfolder w = Some folder
    /\ folder !! "ImageMesh.mat" = Some (MatFile (Some vol) (Some affine_matrix))
    /\ gather_parameters (objects w) = ok parameters
    /\ cfg_prop cfg = parameters
    /\ folder' !! "mmcinfo.json" = Some (JsonFile (SInfo parameters cfg)).
Proof.
  intros H. apply execute_saved in H
    as (parameters & cfg & res & f & stat & normalizer & flux & folder & vol & affine_matrix
        & n1 & n2 & n3 & n4
        & Hpar & Hfolder & Hfile & Hprop & Hres & Hf & Hstat & Hn & Hshape & Hflux & ->).
  destruct (saved_folder_lookup folder parameters cfg res flux affine_matrix)
    as (Hinfo & Hresult & Hplot & _).
  exists parameters, cfg, res, f, stat, normalizer, flux, folder, vol, affine_matrix.
  eexists. exists n1, n2, n3, n4. cbn [trace].
  split; [rewrite solver_calls_app; f_equal; apply solver_calls_prepare_events |].
  split; [exact Hres |]. split; [reflexivity |].
  split; [exact Hresult |]. split; [exact Hplot |].
  split; [exact Hf |]. split; [exact Hstat |]. split; [exact Hn |].
  split; [exact Hshape |]. subst flux. cbn [shape3 at3].
  split; [reflexivity |]. split; [reflexivity |].
  split; [exact Hfolder |]. split; [exact Hfile |]. split; [exact Hpar |].
  split; [exact Hprop | exact Hinfo].
Qed.


(** C8. After a run that does not raise the scene holds no object: every
    object of [bpy.data.objects] was removed, one after the other, and
    the orphaned data was then purged recursively. *)
Theorem scene_emptied (self : Operator) (w w' : World) (r : gset string) :
  execute pmcx_run self w = (inr r, w') ->
  objects w' = []
  /\ context_object w' = None
  /\ exists before after,
       trace w'
       = trace w ++ before ++ map EvRemove (map name (objects w)) ++ EvPurge true :: after.
Proof.
  intros H. apply execute_steps in H as [_ H].
  destruct H as (parameters & obj & act & dir & sp1 & sp2 & folder & vol & affine_matrix
                 & move & scale & cfg & res & flux & H).
  destruct H as (H1 & H2 & H3 & H4 & H5 & H6 & H7 & H8 & H9 & H10 & H11 & H12 & H13 & ->).
  cbn [objects context_object trace].
  split; [reflexivity |]. split; [reflexivity |].
  exists [ EvPrint "Begin to run MMC source transport simulation ...";
           EvLoadmat "ImageMesh.mat"; EvLoadmat "ImageMesh.mat";
           EvSave "mmcinfo.json" (SInfo parameters cfg);
           EvRun cfg;
           EvSave "mcx_result.json" (SResult res);
           EvSave "plot_result.json" (SPlot flux affine_matrix) ].
  eexists. unfold prepare_events. cbn [app]. reflexivity.
Qed.


End RunClaims.

(** ** The example scene, run *)

Import Examples.

Local Open Scope R_scope.


(** X21 on the example scene: the run returns [{"FINISHED"}] after one
    solver call and three saves; the dictionary has the photon number of
    the dialog and the direction [(0, 0, -1)] of the source, which is the
    active object. *)
Lemma execute_builds_cfg_witness :
  execute solver dialog scene = (inr {[ "FINISHED" ]}, finished)
  /\ exists cfg,
       solver_calls (trace finished) = [cfg]
       /\ cfg_nphoton cfg = 10000
       /\ cfg_srcdir cfg = [0; 0; -1]
       /\ map fst (saves (trace finished))
          = ["mmcinfo.json"; "mcx_result.json"; "plot_result.json"]%string.
Proof.
  assert (H : execute solver dialog scene = (inr {[ "FINISHED" ]}, finished))
    by (vm_compute; reflexivity).
  split; [exact H |].
  destruct (execute_builds_cfg solver dialog scene finished _ H)
    as (_ & parameters & obj & act & folder0 & vol & affine_matrix & move & scale
        & srctype & diff & srcpos & dir & sp1 & sp2 & p1 & p2 & u & s0 & unitinmm
        & cfg & res & flux & Hrun).
  destruct Hrun as (_ & _ & _ & Hact & _ & _ & _ & _ & _ & _ & _ & Hdir & _ & _ & _ & _ & _
                    & _ & _ & Hcfg & _ & _ & _ & Hcalls & Hsaves).
  change (Some source = Some act) in Hact. injection Hact as <-.
  change (quaternion2euler [1; 0; 0; 0] = ok dir) in Hdir.
  rewrite quaternion2euler_closed in Hdir. unfold ok in Hdir. injection Hdir as Hdir.
  exists cfg. split; [exact Hcalls |].
  split; [rewrite Hcfg; reflexivity |].
  split; [rewrite Hcfg; cbn [cfg_srcdir]; rewrite <- Hdir; real_list |].
  rewrite Hsaves. reflexivity.
Defined.

(** C4 on the example scene: location (30, 30, 0), translation (10, 20, 0)
    and scales (2, 2, 4). *)
Lemma source_rescaled_witness :
  execute solver dialog scene = (inr {[ "FINISHED" ]}, finished)
  /\ exists cfg,
       solver_calls (trace finished) = [cfg]
       /\ cfg_srcpos cfg = [(30 - 10) / 2; (30 - 20) / 2; (0 - 0) / 4]
       /\ cfg_srcparam1 cfg = [4 / 2; 6 / 2; 8 / 4; 5 / 1]
       /\ cfg_srcparam2 cfg = [0 / 2; 0 / 2; 0 / 4; 0 / 1]
       /\ cfg_unitinmm cfg = IDNum (1 * 2).
Proof.
  assert (H : execute solver dialog scene = (inr {[ "FINISHED" ]}, finished))
    by (vm_compute; reflexivity).
  split; [exact H |].
  destruct (source_rescaled solver dialog scene finished _ H)
    as (obj & folder' & vol & affine_matrix & cfg & lx & ly & lz & tx & ty & tz & sx & sy & sz
        & Hobj & Hloc & Hfolder & Hfile & Htx & Hty & Htz & Hsx & Hsy & Hsz & Hcalls
        & Hpos & Hp1 & Hp2 & Hunit).
  change (Some source = Some obj) in Hobj. injection Hobj as <-.
  change ((30, 30, 0) = (lx, ly, lz)) in Hloc. injection Hloc as <- <- <-.
  change (Some folder = Some folder') in Hfolder. injection Hfolder as <-.
  change (Some (MatFile (Some image) (Some affine))
          = Some (MatFile (Some vol) (Some affine_matrix))) in Hfile.
  injection Hfile as <- <-.
  change (ok 10 = ok tx) in Htx. injection Htx as <-.
  change (ok 20 = ok ty) in Hty. injection Hty as <-.
  change (ok 0 = ok tz) in Htz. injection Htz as <-.
  change (ok 2 = ok sx) in Hsx. injection Hsx as <-.
  change (ok 2 = ok sy) in Hsy. injection Hsy as <-.
  change (ok 4 = ok sz) in Hsz. injection Hsz as <-.
  exists cfg. split; [exact Hcalls |]. split; [exact Hpos |].
  split; [apply Hp1; reflexivity |]. split; [apply Hp2; reflexivity |].
  apply Hunit. reflexivity.
Defined.

(** C5, as the claim words it, fails on two runs in which the solver
    returns the same value: the ['scale'] written to [plot_result.json] and
    the [cfg] written to [mmcinfo.json] differ between them, as the affine
    matrices of the two work folders do. *)
Lemma outputs_not_from_solver_alone :
  exists parameters1 parameters2 cfg1 cfg2 flux1 flux2,
    fst (execute solver dialog scene) = inr {[ "FINISHED" ]}
    /\ fst (execute solver dialog scene_identity) = inr {[ "FINISHED" ]}
    /\ solver cfg1 = ok dark
    /\ solver cfg2 = ok dark
    /\ saves (trace (snd (execute solver dialog scene)))
       = [ ("mmcinfo.json", SInfo parameters1 cfg1);
           ("mcx_result.json", SResult dark);
           ("plot_result.json", SPlot flux1 affine) ]
    /\ saves (trace (snd (execute solver dialog scene_identity)))
       = [ ("mmcinfo.json", SInfo parameters2 cfg2);
           ("mcx_result.json", SResult dark);
           ("plot_result.json", SPlot flux2 affine_identity) ]
    /\ affine <> affine_identity
    /\ cfg_srcpos cfg1 <> cfg_srcpos cfg2.
Proof.
  do 6 eexists.
  split; [vm_compute; reflexivity |]. split; [vm_compute; reflexivity |].
  split; [reflexivity |]. split; [reflexivity |].
  split; [vm_compute; reflexivity |]. split; [vm_compute; reflexivity |].
  split.
  - intros Heq. apply (f_equal (fun m => nth 0 (nth 0 m []) 0)) in Heq.
    cbn in Heq. lra.
  - cbn [cfg_srcpos]. intros Heq. apply (f_equal (fun v => nth 0 v 0)) in Heq.
    cbn in Heq. lra.
Qed.

(** C5 on the example scene: [mcx_result.json] holds what the solver
    returned, and the ['scale'] of [plot_result.json] is the affine matrix
    of [ImageMesh.mat]. *)
Lemma result_is_solver_output_witness :
  execute solver dialog scene = (inr {[ "FINISHED" ]}, finished)
  /\ exists folder' flux,
       workfolder finished = Some folder'
       /\ folder' !! "mcx_result.json" = Some (JsonFile (SResult dark))
       /\ folder' !! "plot_result.json" = Some (JsonFile (SPlot flux affine)).
Proof.
  assert (H : execute solver dialog scene = (inr {[ "FINISHED" ]}, finished))
    by (vm_compute; reflexivity).
  split; [exact H |].
  destruct (result_is_solver_output solver dialog scene finished _ H)
    as (parameters & cfg & res & f & stat & normalizer & flux & folder0 & vol & affine_matrix
        & folder' & n1 & n2 & n3 & n4
        & _ & Hres & Hfolder' & Hfile & Hplot & _ & _ & _ & _ & _ & _ & Hfolder & Hmat & _).
  unfold solver, ok in Hres. injection Hres as <-.
  change (Some folder = Some folder0) in Hfolder. injection Hfolder as <-.
  change (Some (MatFile (Some image) (Some affine))
          = Some (MatFile (Some vol) (Some affine_matrix))) in Hmat.
  injection Hmat as <- <-.
  exists folder', flux. split; [exact Hfolder' |]. split; [exact Hfile | exact Hplot].
Defined.



(** C8 on the example scene: three objects before, none after. *)
Lemma scene_emptied_witness :
  execute solver dialog scene = (inr {[ "FINISHED" ]}, finished)
  /\ length (objects scene) = 3%nat
  /\ objects finished = [].
Proof.
  assert (H : execute solver dialog scene = (inr {[ "FINISHED" ]}, finished))
    by (vm_compute; reflexivity).
  split; [exact H |]. split; [reflexivity |].
  exact (proj1 (scene_emptied solver dialog scene finished _ H)).
Defined.



(** C2 at a scene where the active object is not the source.  The source
    is in its rest orientation, whose direction is [(0, 0, -1)], and its
    position does reach [cfg]; the direction of [cfg] is [(0, 0, 1)], that
    of the active tissue region. *)
Theorem srcdir_ignores_source_orientation :
  execute solver dialog scene_region_active = (inr {[ "FINISHED" ]}, finished_region_active)
  /\ bpy.find_object "source" (objects scene_region_active) = Some source
  /\ quaternion2euler (bpy.quaternion_list (rotation_quaternion source)) = ok [0; 0; -1]
  /\ bpy.active_object scene_region_active = Some turned_region
  /\ exists cfg,
       solver_calls (trace finished_region_active) = [cfg]
       /\ cfg_srcpos cfg = [(30 - 10) / 2; (30 - 20) / 2; (0 - 0) / 4]
       /\ cfg_srcdir cfg = [0; 0; 1].
Proof.
  assert (H : execute solver dialog scene_region_active
              = (inr {[ "FINISHED" ]}, finished_region_active))
    by (vm_compute; reflexivity).
  split; [exact H |]. split; [reflexivity |].
  split; [change (quaternion2euler [1; 0; 0; 0] = ok [0; 0; -1]);
          rewrite quaternion2euler_closed; apply (f_equal inr); real_list |].
  split; [reflexivity |].
  destruct (srcdir_of_active_object solver dialog scene_region_active _ _ H)
    as (act & cfg & Hact & Hcalls & Hdir).
  change (Some turned_region = Some act) in Hact. injection Hact as <-.
  change (quaternion2euler [0; 1; 0; 0] = ok (cfg_srcdir cfg)) in Hdir.
  rewrite quaternion2euler_closed in Hdir. unfold ok in Hdir. injection Hdir as Hdir.
  exists cfg. split; [exact Hcalls |]. split.
  - vm_compute in Hcalls. injection Hcalls as <-. vm_compute. real_list.
  - rewrite <- Hdir. real_list.
Qed.


(** * Further properties of the operator *)

(** ** Where a run can raise *)

Section RaisedFacts.

Variable pmcx_run : Cfg -> result Res.

Lemma lift_raises {A : Type} (r : result A) (w w' : World) (e : exn) :
  lift r w = (inl e, w') -> r = inl e /\ w' = w.
Proof. unfold lift. intros H. inversion H. split; reflexivity. Qed.

Lemma objects_getitem_raises (key : string) (w w' : World) (e : exn) :
  bpy.objects_getitem key w = (inl e, w') ->
  bpy.find_object key (objects w) = None /\ e = KeyError /\ w' = w.
Proof.
  unfold bpy.objects_getitem.
  destruct (bpy.find_object key (objects w)); intros H; inversion H.
  repeat split; reflexivity.
Qed.

Lemma set_context_rotation_mode_raises (mode : string) (w w' : World) (e : exn) :
  bpy.set_context_rotation_mode mode w = (inl e, w') ->
  bpy.active_object w = None /\ e = AttributeError /\ w' = w.
Proof.
  unfold bpy.set_context_rotation_mode.
  destruct (bpy.active_object w); intros H; inversion H. repeat split; reflexivity.
Qed.

Lemma context_rotation_quaternion_raises (w w' : World) (e : exn) :
  bpy.context_rotation_quaternion w = (inl e, w') -> w' = w.
Proof.
  unfold bpy.context_rotation_quaternion.
  destruct (bpy.active_object w); intros H; inversion H. reflexivity.
Qed.

Lemma loadmat_raises (fname : string) (w w' : World) (e : exn) :
  fs.loadmat fname w = (inl e, w') ->
  w' = mkWorld (objects w) (context_object w) (workpath w) (trace w ++ [EvLoadmat fname]).
Proof.
  unfold fs.loadmat.
  destruct (workpath w) as [| | dir]; try (intros H; inversion H; reflexivity).
  destruct (dir !! fname) as [[image scale | c] |]; intros H; inversion H; reflexivity.
Qed.

Lemma save_raises (content : saved) (fname : string) (w w' : World) (e : exn) :
  fs.save content fname w = (inl e, w') -> workfolder w = None.
Proof.
  unfold fs.save, workfolder.
  destruct (workpath w); intros H; [reflexivity | reflexivity | inversion H].
Qed.

Lemma run_raises (cfg : Cfg) (w w' : World) (e : exn) :
  run pmcx_run cfg w = (inl e, w') ->
  pmcx_run cfg = inl e /\
  w' = mkWorld (objects w) (context_object w) (workpath w) (trace w ++ [EvRun cfg]).
Proof.
  unfold run. intros H.
  apply bind_M_raises in H as [H | (u & w1 & Hlog & H)].
  - unfold log in H. inversion H.
  - apply log_ok in Hlog. apply lift_raises in H as [Hr ->]. split; assumption.
Qed.

(** Every run of [preparemmc] that raises ends in one of the states of
    [raised]. *)
Lemma preparemmc_raises (self : Operator) (w w' : World) (e : exn) :
  preparemmc pmcx_run self w = (inl e, w') -> raised pmcx_run w e w'.
Proof.
  unfold preparemmc. intros H.
  apply bind_M_raises in H as [H | (objs & w1 & H1 & H)]; [inversion H |].
  apply reads_ok in H1 as [-> ->].
  apply bind_M_raises in H as [H | (parameters & w1 & H1 & H)].
  { apply lift_raises in H as [_ ->]. constructor. }
  apply lift_ok in H1 as [Hpar ->].
  apply bind_M_raises in H as [H | (obj & w1 & H1 & H)].
  { apply objects_getitem_raises in H as (_ & _ & ->). constructor. }
  apply objects_getitem_ok in H1 as [Hobj ->].
  apply bind_M_raises in H as [H | (u1 & w1 & H1 & H)].
  { apply set_context_rotation_mode_raises in H as (_ & _ & ->). constructor. }
  apply set_context_rotation_mode_ok in H1 as (act & Hact & ->).
  fold (quaternion_mode act (objects w)) in H.
  apply bind_M_raises in H as [H | (direction & w1 & H1 & H)].
  { apply context_rotation_quaternion_raises in H as ->.
    apply raised_at_source. exact Hact. }
  apply context_rotation_quaternion_ok in H1 as (act' & _ & -> & ->).
  apply bind_M_raises in H as [H | (dir & w1 & H1 & H)].
  { apply lift_raises in H as [_ ->]. apply raised_at_source. exact Hact. }
  apply lift_ok in H1 as [Hdir ->].
  apply bind_M_raises in H as [H | (sp1 & w1 & H1 & H)].
  { apply lift_raises in H as [_ ->]. apply raised_at_source. exact Hact. }
  apply lift_ok in H1 as [Hsp1 ->].
  apply bind_M_raises in H as [H | (sp2 & w1 & H1 & H)].
  { apply lift_raises in H as [_ ->]. apply raised_at_source. exact Hact. }
  apply lift_ok in H1 as [Hsp2 ->].
  apply bind_M_raises in H as [H | (isd & w1 & H1 & H)]; [inversion H |].
  apply reads_ok in H1 as [-> ->]. unfold workfolder in H. cbn [workpath] in H.
  destruct (workpath w) as [| | folder] eqn:Hpath; cbn [negb] in H.
  { (* nothing at the path: line 101 creates the folder, line 103 raises *)
    apply bind_M_raises in H as [H | (u2 & w1 & H1 & H)].
    { unfold fs.makedirs in H. cbn [workpath] in H. inversion H. }
    unfold fs.makedirs in H1. cbn [workpath objects context_object trace] in H1.
    inversion H1; subst w1. clear H1.
    apply bind_M_raises in H as [H | (mat & w1 & H1 & H)].
    { unfold fs.loadmat in H. cbn [workpath objects context_object trace] in H.
      rewrite lookup_empty in H. inversion H; subst.
      rewrite <- app_assoc. apply raised_in_new_folder; assumption. }
    apply loadmat_ok in H1 as (d & Hd & Hlook & _).
    cbn [workpath] in Hd. inversion Hd; subst d.
    rewrite lookup_empty in Hlook. discriminate. }
  { (* a file at the path: line 101 raises *)
    apply bind_M_raises in H as [H | (u2 & w1 & H1 & H)].
    { unfold fs.makedirs in H. cbn [workpath] in H. inversion H; subst.
      rewrite <- Hpath. apply raised_at_source. exact Hact. }
    unfold fs.makedirs in H1. cbn [workpath] in H1. inversion H1. }
  assert (Hfolder : workfolder w = Some folder)
    by (unfold workfolder; rewrite Hpath; reflexivity).
  apply bind_M_raises in H as [H | (u2 & w1 & H1 & H)]; [inversion H |].
  unfold unit_M in H1. inversion H1; subst w1. clear H1.
  apply bind_M_raises in H as [H | (mat & w1 & H1 & H)].
  { apply loadmat_raises in H as ->. cbn [objects context_object workpath trace].
    apply raised_at_image; assumption. }
  apply loadmat_ok in H1 as (d & _ & _ & ->).
  cbn [objects context_object workpath trace] in H.
  apply bind_M_raises in H as [H | (vol & w1 & H1 & H)].
  { apply lift_raises in H as [_ ->]. apply raised_at_image; assumption. }
  apply lift_ok in H1 as [_ ->].
  apply bind_M_raises in H as [H | (mat' & w1 & H1 & H)].
  { apply loadmat_raises in H as ->. cbn [objects context_object workpath trace].
    rewrite <- app_assoc. apply raised_at_cfg; assumption. }
  apply loadmat_ok in H1 as (d' & _ & _ & ->).
  cbn [objects context_object workpath trace] in H. rewrite <- app_assoc in H.
  cbn [app] in H.
  apply bind_M_raises in H as [H | (affine_matrix & w1 & H1 & H)].
  { apply lift_raises in H as [_ ->]. apply raised_at_cfg; assumption. }
  apply lift_ok in H1 as [_ ->].
  apply bind_M_raises in H as [H | (move & w1 & H1 & H)].
  { apply lift_raises in H as [_ ->]. apply raised_at_cfg; assumption. }
  apply lift_ok in H1 as [_ ->].
  apply bind_M_raises in H as [H | (scale & w1 & H1 & H)].
  { apply lift_raises in H as [_ ->]. apply raised_at_cfg; assumption. }
  apply lift_ok in H1 as [_ ->].
  apply bind_M_raises in H as [H | (cfg & w1 & H1 & H)].
  { apply lift_raises in H as [_ ->]. apply raised_at_cfg; assumption. }
  apply lift_ok in H1 as [_ ->].
  apply bind_M_raises in H as [H | (u3 & w1 & H1 & H)].
  { apply save_raises in H. unfold workfolder in H. cbn [workpath] in H. discriminate. }
  apply save_ok in H1 as (d1 & Hd1 & ->).
  cbn [workpath] in Hd1. inversion Hd1; subst d1. clear Hd1.
  cbn [objects context_object workpath trace] in H.
  rewrite <- app_assoc in H. cbn [app] in H.
  apply bind_M_raises in H as [H | (res & w1 & H1 & H)].
  { apply run_raises in H as [Hres ->]. cbn [objects context_object workpath trace].
    rewrite <- app_assoc. cbn [app]. apply raised_by_solver; assumption. }
  apply run_ok in H1 as [Hres ->].
  cbn [objects context_object workpath trace] in H.
  rewrite <- app_assoc in H. cbn [app] in H.
  apply bind_M_raises in H as [H | (u4 & w1 & H1 & H)].
  { apply save_raises in H. unfold workfolder in H. cbn [workpath] in H. discriminate. }
  apply save_ok in H1 as (d2 & Hd2 & ->).
  cbn [workpath] in Hd2. inversion Hd2; subst d2. clear Hd2.
  cbn [objects context_object workpath trace] in H.
  rewrite <- app_assoc in H. cbn [app] in H.
  apply bind_M_raises in H as [H | (flux & w1 & H1 & H)].
  { apply lift_raises in H as [Hflux ->]. apply raised_at_flux; assumption. }
  apply lift_ok in H1 as [_ ->].
  apply bind_M_raises in H as [H | (u5 & w1 & H1 & H)].
  { apply save_raises in H. unfold workfolder in H. cbn [workpath] in H. discriminate. }
  apply bind_M_raises in H as [H | (u6 & w2 & Hrm & H)].
  { unfold bpy.remove_all in H. inversion H. }
  apply bind_M_raises in H as [H | (u7 & w3 & Hpurge & H)].
  { unfold bpy.orphans_purge, log in H. inversion H. }
  apply bind_M_raises in H as [H | (u8 & w4 & Hprint & H)].
  { unfold print, log in H. inversion H. }
  unfold print, log in H. inversion H.
Qed.

(** The same for [execute]: it raises exactly when [preparemmc] does. *)
Lemma execute_raises (self : Operator) (w w' : World) (e : exn) :
  execute pmcx_run self w = (inl e, w') -> raised pmcx_run (begun w) e w'.
Proof.
  unfold execute. intros H.
  apply bind_M_raises in H as [H | (u & w1 & H1 & H)]; [inversion H |].
  apply log_ok in H1. subst w1. fold (begun w) in H.
  apply bind_M_raises in H as [H | (u' & w1 & H1 & H)].
  - apply (preparemmc_raises self). exact H.
  - inversion H.
Qed.

End RaisedFacts.

(** ** More on [quaternion2euler] *)

Section DirectionFacts.

Local Open Scope R_scope.

(** X2. A quaternion and its negative, which stand for the same rotation,
    give the same direction. *)
Theorem quaternion2euler_negated (w x y z : R) :
  quaternion2euler [- w; - x; - y; - z] = quaternion2euler [w; x; y; z].
Proof.
  rewrite !quaternion2euler_closed. apply (f_equal inr).
  repeat (apply f_equal2; [ring |]). reflexivity.
Qed.

(** X3. A quaternion with no [x] and [y] part, a turn about the z axis
    (normalised or not), leaves the direction at [(0, 0, -1)]. *)
Theorem quaternion2euler_about_z (w z : R) :
  quaternion2euler [w; 0; 0; z] = ok [0; 0; -1].
Proof.
  rewrite quaternion2euler_closed. apply (f_equal inr).
  repeat (apply f_equal2; [ring |]). reflexivity.
Qed.



End DirectionFacts.

(** ** More on the optical parameters *)

Section ParameterFacts.

(** In a dictionary, a key finds its own entry. *)
Lemma find_key_nodup (d : list (string * idprop)) (kv : string * idprop) :
  List.NoDup (map fst d) -> In kv d ->
  List.find (fun kv' => String.eqb (fst kv') (fst kv)) d = Some kv.
Proof.
  induction d as [| kv0 d IH]; intros Hnodup Hin; [destruct Hin |].
  cbn [map] in Hnodup. apply NoDup_cons_iff in Hnodup as [Hfresh Hnodup].
  cbn [List.find]. destruct Hin as [-> | Hin].
  - rewrite String.eqb_refl. reflexivity.
  - destruct (String.eqb (fst kv0) (fst kv)) eqn:Heq.
    + apply String.eqb_eq in Heq. exfalso. apply Hfresh. rewrite Heq.
      apply in_map. exact Hin.
    + apply IH; assumption.
Qed.

(** The loop of the [try] block over entries that all have [to_list]. *)
Lemma iso2mesh_loop_arrays (d d' : list (string * idprop)) (parameters : list (list idprop)) :
  List.NoDup (map fst d) -> incl d' d ->
  Forall (fun kv => exists p, bpy.to_list (snd kv) = ok p) d' ->
  exists ps,
    iso2mesh_loop d (map fst d') parameters = (parameters ++ ps, None)
    /\ Forall2 (fun kv p => bpy.to_list (snd kv) = ok p) d' ps.
Proof.
  intros Hnodup. revert parameters.
  induction d' as [| kv d' IH]; intros parameters Hincl Hall.
  - exists []. split; [cbn; rewrite app_nil_r; reflexivity | constructor].
  - apply Forall_cons_iff in Hall as [[p Hp] Hall].
    assert (Hin : In kv d) by (apply Hincl; left; reflexivity).
    assert (Hincl' : incl d' d) by (intros a Ha; apply Hincl; right; exact Ha).
    destruct (IH (parameters ++ [p]) Hincl' Hall) as (ps & Hloop & Hps).
    exists (p :: ps). split; [| constructor; assumption].
    cbn [map iso2mesh_loop]. rewrite (find_key_nodup d kv Hnodup Hin).
    rewrite Hp. unfold ok. rewrite Hloop. rewrite <- app_assoc. reflexivity.
Qed.

(** X5. When the scene has an object [Iso2Mesh] whose mesh properties (under
    distinct keys) are all arrays, the parameter list is those arrays, in
    key order, and nothing else: the other objects of the scene are not
    consulted. *)
Theorem gather_parameters_iso2mesh (objs : list Object) (obj : Object)
    (d : list (string * idprop)) :
  bpy.find_object "Iso2Mesh" objs = Some obj ->
  data obj = Some d ->
  List.NoDup (map fst d) ->
  Forall (fun kv => exists p, bpy.to_list (snd kv) = ok p) d ->
  exists ps,
    gather_parameters objs = ok ps
    /\ Forall2 (fun kv p => bpy.to_list (snd kv) = ok p) d ps.
Proof.
  intros Hobj Hdata Hnodup Hall.
  destruct (iso2mesh_loop_arrays d d [] Hnodup (incl_refl d) Hall) as (ps & Hloop & Hps).
  exists ps. split; [| exact Hps].
  unfold gather_parameters, try_iso2mesh. rewrite Hobj, Hdata, Hloop. reflexivity.
Qed.

(** Only a missing key makes the [except] block raise. *)
Lemma fallback_loop_raises (objs : list Object) (parameters : list (list idprop)) (e : exn) :
  fallback_loop objs parameters = inl e -> e = KeyError.
Proof.
  revert parameters. induction objs as [| obj objs IH]; intros parameters; [discriminate |].
  cbn [fallback_loop].
  destruct (bpy.contains obj "mua"); cbn [negb]; [| apply IH].
  unfold bpy.getitem.
  destruct (props obj !! "mua"); cbn [rbind ok raise]; [| congruence].
  destruct (props obj !! "mus"); cbn [rbind ok raise]; [| congruence].
  destruct (props obj !! "g"); cbn [rbind ok raise]; [| congruence].
  destruct (props obj !! "n"); cbn [rbind ok raise]; [| congruence].
  apply IH.
Qed.

(** Lines 70-79 raise nothing but [KeyError]. *)
Lemma gather_parameters_raises (objs : list Object) (e : exn) :
  gather_parameters objs = inl e -> e = KeyError.
Proof.
  unfold gather_parameters.
  destruct (try_iso2mesh objs []) as [ps [e' |]]; [| discriminate].
  apply fallback_loop_raises.
Qed.

Lemma collect_ok_all {A B : Type} (f : A -> result B) (l : list A) (bs : list B) :
  collect f l = ok bs -> forall a, In a l -> exists b, f a = ok b.
Proof.
  revert bs. induction l as [| a0 l IH]; intros bs H a Hin; [destruct Hin |].
  cbn [collect] in H.
  destruct (f a0) as [e | b0] eqn:Hf; [discriminate |].
  cbn [rbind] in H.
  destruct (collect f l) as [e | bs'] eqn:Hc; [discriminate |].
  destruct Hin as [<- | Hin]; [exists b0; exact Hf | exact (IH bs' eq_refl a Hin)].
Qed.

(** X6. In the fallback, an object (other than the last of the scene) that
    has ["mua"] but lacks one of ["mus"], ["g"], ["n"] makes the whole
    gathering raise [KeyError]: no partial list is returned. *)
Theorem gather_parameters_incomplete (objs : list Object) (obj : Object) (key : string)
    (appended : list (list idprop)) (e : exn) :
  try_iso2mesh objs [] = (appended, Some e) ->
  In obj (removelast objs) ->
  bpy.contains obj "mua" = true ->
  key = "mus" \/ key = "g" \/ key = "n" ->
  props obj !! key = None ->
  gather_parameters objs = raise KeyError.
Proof.
  intros Htry Hin Hmua Hkey Hnone.
  destruct (gather_parameters objs) as [e' | ps] eqn:Hg.
  - apply gather_parameters_raises in Hg. rewrite Hg. reflexivity.
  - exfalso. rewrite (gather_parameters_except objs appended e Htry) in Hg.
    unfold fallback_spec in Hg.
    destruct (collect four_parameters _) as [e' | rest] eqn:Hc; [discriminate |].
    assert (Hin' : In obj (List.filter (fun o => bpy.contains o "mua") (removelast objs))).
    { apply filter_In. split; assumption. }
    destruct (collect_ok_all _ _ _ Hc obj Hin') as [four Hfour].
    unfold four_parameters, bpy.getitem in Hfour.
    destruct (props obj !! "mua"); cbn [rbind ok raise] in Hfour; [| discriminate].
    destruct (props obj !! "mus") eqn:Hmus; cbn [rbind ok raise] in Hfour; [| discriminate].
    destruct (props obj !! "g") eqn:Hg'; cbn [rbind ok raise] in Hfour; [| discriminate].
    destruct (props obj !! "n") eqn:Hn; cbn [rbind ok raise] in Hfour; [| discriminate].
    destruct Hkey as [-> | [-> | ->]]; congruence.
Qed.

(** X7. In the fallback the last object of the scene is never read: two
    scenes that differ in their last object only, neither with an
    [Iso2Mesh], give the same parameters. *)
Theorem gather_parameters_skips_last (objs : list Object) (last1 last2 : Object) :
  bpy.find_object "Iso2Mesh" (objs ++ [last1]) = None ->
  bpy.find_object "Iso2Mesh" (objs ++ [last2]) = None ->
  gather_parameters (objs ++ [last1]) = gather_parameters (objs ++ [last2]).
Proof.
  intros H1 H2. unfold gather_parameters.
  rewrite (try_iso2mesh_missing _ H1), (try_iso2mesh_missing _ H2).
  rewrite !removelast_last. reflexivity.
Qed.

End ParameterFacts.

Import MoreExamples.

(** X5 on a scene whose [Iso2Mesh] holds two regions and which has a stray
    region with its own ["mua"]. *)
Lemma gather_parameters_iso2mesh_witness :
  exists ps,
    gather_parameters (objects scene_iso2mesh) = ok ps
    /\ length ps = 2%nat.
Proof.
  assert (Hobj : bpy.find_object "Iso2Mesh" (objects scene_iso2mesh) = Some iso2mesh_regions)
    by reflexivity.
  assert (Hdata : data iso2mesh_regions
                  = Some [ ("region_1", IDArray [0; 0; 1; 1]);
                           ("region_2", IDArray [1 / 100; 1; 9 / 10; 137 / 100]) ])
    by reflexivity.
  assert (Hnodup : List.NoDup (map fst [ ("region_1", IDArray [0; 0; 1; 1]);
                                    ("region_2", IDArray [1 / 100; 1; 9 / 10; 137 / 100]) ])).
  { cbn [map fst]. repeat constructor; cbn [In]; intuition discriminate. }
  assert (Hall : Forall (fun kv : string * idprop => exists p, bpy.to_list (snd kv) = ok p)
                   [ ("region_1", IDArray [0; 0; 1; 1]);
                     ("region_2", IDArray [1 / 100; 1; 9 / 10; 137 / 100]) ]).
  { repeat constructor; eexists; reflexivity. }
  destruct (gather_parameters_iso2mesh _ _ _ Hobj Hdata Hnodup Hall) as (ps & Hps & Hshape).
  exists ps. split; [exact Hps |].
  apply Forall2_length in Hshape. symmetry. exact Hshape.
Defined.

(** X6 on a scene whose second object has no ["g"]. *)
Lemma gather_parameters_incomplete_witness :
  gather_parameters [tissue "region_1" 0 0 1 1; half_region; source] = raise KeyError.
Proof.
  apply (gather_parameters_incomplete _ half_region "g" [] KeyError);
    [ reflexivity | right; left; reflexivity | reflexivity
    | right; left; reflexivity | reflexivity ].
Defined.

(** X7 with a tissue region or the source in the last place. *)
Lemma gather_parameters_skips_last_witness :
  gather_parameters ([tissue "region_1" 0 0 1 1] ++ [tissue "region_2" 5 5 5 5])
  = gather_parameters ([tissue "region_1" 0 0 1 1] ++ [source]).
Proof.
  apply gather_parameters_skips_last; reflexivity.
Defined.

(** ** What every run keeps *)

Section KeptFacts.

Variable pmcx_run : Cfg -> result Res.

Lemma quaternion_mode_same (act : Object) (objs : list Object) :
  Forall2 (fun o o' => o' = o \/ o' = bpy.with_rotation_mode "QUATERNION" o)
    objs (quaternion_mode act objs).
Proof.
  induction objs as [| o objs IH]; cbn [quaternion_mode map]; constructor.
  - destruct (String.eqb (name o) (name act)); [right | left]; reflexivity.
  - exact IH.
Qed.

Lemma same_objects (objs : list Object) :
  Forall2 (fun o o' => o' = o \/ o' = bpy.with_rotation_mode "QUATERNION" o) objs objs.
Proof. induction objs; constructor; [left; reflexivity | assumption]. Qed.

(** X8. A run that raises removes nothing from the scene: it has the same
    objects in the same order, each one unchanged or changed in its
    rotation mode only (set to ['QUATERNION']), and the same active
    object. *)
Theorem raise_keeps_scene (self : Operator) (w w' : World) (e : exn) :
  execute pmcx_run self w = (inl e, w') ->
  context_object w' = context_object w
  /\ Forall2 (fun o o' => o' = o \/ o' = bpy.with_rotation_mode "QUATERNION" o)
       (objects w) (objects w').
Proof.
  intros H. apply execute_raises in H.
  inversion H; subst; cbn [objects context_object begun];
    (split; [reflexivity | first [apply same_objects | apply quaternion_mode_same]]).
Qed.

(** X9. In every run, raising or not, the solver is called at most once.
    Nothing is saved before [mmcinfo.json], which is saved with the very
    [cfg] of the call before the solver is called; [mcx_result.json] is
    saved only once the solver has returned, with what it returned, and
    [plot_result.json] only after that. *)
Theorem solver_called_at_most_once (self : Operator) (w : World) :
  exists evs,
    trace (snd (execute pmcx_run self w)) = trace w ++ evs
    /\ ((solver_calls evs = [] /\ saves evs = [])
        \/ exists parameters cfg,
             solver_calls evs = [cfg]
             /\ (saves evs = [("mmcinfo.json", SInfo parameters cfg)]
                 \/ exists res,
                      pmcx_run cfg = ok res
                      /\ (saves evs = [ ("mmcinfo.json", SInfo parameters cfg);
                                        ("mcx_result.json", SResult res) ]
                          \/ exists flux affine_matrix,
                               saves evs = [ ("mmcinfo.json", SInfo parameters cfg);
                                             ("mcx_result.json", SResult res);
                                             ("plot_result.json", SPlot flux affine_matrix) ]))).
Proof.
  destruct (execute pmcx_run self w) as [[e | r] w'] eqn:Hrun; cbn [snd].
  - apply execute_raises in Hrun.
    inversion Hrun; subst; cbn [trace begun]; rewrite <- ?app_assoc; cbn [app];
      eexists; (split; [reflexivity |]).
    + left. split; reflexivity.
    + left. split; reflexivity.
    + left. split; reflexivity.
    + left. split; reflexivity.
    + left. split; reflexivity.
    + right. exists parameters, cfg. split; [reflexivity |]. left. reflexivity.
    + right. exists parameters, cfg. split; [reflexivity |]. right.
      exists res. split; [assumption |]. left. reflexivity.
  - apply execute_steps in Hrun as [_ Hrun].
    destruct Hrun as (parameters & obj & act & dir & sp1 & sp2 & folder & vol & affine_matrix
                      & move & scale & cfg & res & flux & Hrun).
    destruct Hrun as (_ & _ & _ & _ & _ & _ & _ & _ & _ & _ & _ & Hres & _ & ->).
    cbn [trace]. eexists. split; [reflexivity |].
    right. exists parameters, cfg. split.
    + change (solver_calls (prepare_events (objects w) parameters cfg res flux affine_matrix)
              = [cfg]).
      apply solver_calls_prepare_events.
    + right. exists res. split; [exact Hres |]. right. exists flux, affine_matrix.
      change (saves (prepare_events (objects w) parameters cfg res flux affine_matrix)
              = [ ("mmcinfo.json", SInfo parameters cfg);
                  ("mcx_result.json", SResult res);
                  ("plot_result.json", SPlot flux affine_matrix) ]).
      apply saves_prepare_events.
Qed.

(** X10. No run, raising or not, deletes or rewrites a file of the work
    folder other than the three it saves: [ImageMesh.mat] and every other
    file are afterwards what they were. *)
Theorem other_files_kept (self : Operator) (w : World) (folder : gmap string file)
    (f : string) (x : file) :
  workfolder w = Some folder ->
  folder !! f = Some x ->
  f <> "mmcinfo.json" -> f <> "mcx_result.json" -> f <> "plot_result.json" ->
  exists folder',
    workfolder (snd (execute pmcx_run self w)) = Some folder'
    /\ folder' !! f = Some x.
Proof.
  intros Hfolder Hx H1 H2 H3.
  destruct (execute pmcx_run self w) as [[e | r] w'] eqn:Hrun; cbn [snd].
  - apply execute_raises in Hrun.
    inversion Hrun; subst;
      try match goal with
          | Hm : workpath (begun w) = Missing |- _ =>
              exfalso; change (workpath w = Missing) in Hm;
              unfold workfolder in Hfolder; rewrite Hm in Hfolder; discriminate Hfolder
          end;
      try match goal with
          | Hf : workfolder (begun w) = Some ?d |- _ =>
              change (workfolder w = Some d) in Hf; rewrite Hfolder in Hf;
              injection Hf as <-
          end;
      eexists; (split; [first [exact Hfolder | reflexivity] |]);
      rewrite ?lookup_insert_ne by congruence; exact Hx.
  - apply execute_steps in Hrun as [_ Hrun].
    destruct Hrun as (parameters & obj & act & dir & sp1 & sp2 & folder0 & vol & affine_matrix
                      & move & scale & cfg & res & flux & Hrun).
    destruct Hrun as (_ & _ & _ & _ & _ & _ & Hfolder0 & _ & _ & _ & _ & _ & _ & ->).
    rewrite Hfolder in Hfolder0. injection Hfolder0 as <-.
    eexists. split; [reflexivity |].
    destruct (saved_folder_lookup folder parameters cfg res flux affine_matrix)
      as (_ & _ & _ & Hother).
    rewrite Hother by assumption. exact Hx.
Qed.

(** X11. When the solver raises, the run raises the same exception;
    [mmcinfo.json] has been written for the new run and nothing else in
    the folder has changed, so [mcx_result.json] and [plot_result.json]
    still hold whatever an earlier run left there. *)
Theorem solver_failure_keeps_old_results (self : Operator) (w w' : World)
    (e e' : exn) (cfg : Cfg) :
  execute pmcx_run self w = (inl e, w') ->
  solver_calls (trace w') = solver_calls (trace w) ++ [cfg] ->
  pmcx_run cfg = inl e' ->
  e = e' /\
  exists folder parameters,
    workfolder w = Some folder
    /\ workfolder w' = Some (<["mmcinfo.json" := JsonFile (SInfo parameters cfg)]> folder)
    /\ (<["mmcinfo.json" := JsonFile (SInfo parameters cfg)]> folder) !! "mcx_result.json"
       = folder !! "mcx_result.json"
    /\ (<["mmcinfo.json" := JsonFile (SInfo parameters cfg)]> folder) !! "plot_result.json"
       = folder !! "plot_result.json".
Proof.
  intros Hrun Hcalls Hsolver. apply execute_raises in Hrun.
  inversion Hrun; subst; cbn [trace begun workfolder] in *;
    rewrite <- ?app_assoc in Hcalls; rewrite !solver_calls_app in Hcalls;
    apply app_inv_head in Hcalls; cbn in Hcalls; try discriminate Hcalls.
  - injection Hcalls as ->.
    split; [congruence |].
    eexists. exists parameters.
    split; [eassumption |]. split; [reflexivity |].
    split; apply lookup_insert_ne; discriminate.
  - injection Hcalls as ->. unfold ok in *. congruence.
Qed.

(** Before line 84 the run changes nothing but the console. *)
Lemma raises_at_once (self : Operator) (w : World) (e : exn) :
  (gather_parameters (objects w) = inl e
   \/ (exists parameters, gather_parameters (objects w) = ok parameters)
      /\ ((bpy.find_object "source" (objects w) = None /\ e = KeyError)
          \/ (exists obj, bpy.find_object "source" (objects w) = Some obj)
             /\ bpy.active_object w = None /\ e = AttributeError)) ->
  execute pmcx_run self w = (inl e, begun w).
Proof.
  intros H. unfold execute.
  rewrite (bind_M_inr _ _ w tt (begun w)) by reflexivity.
  apply bind_M_inl. unfold preparemmc.
  rewrite (bind_M_inr _ _ (begun w) (objects w) (begun w)) by reflexivity.
  destruct H as [Hpar | [[parameters Hpar] H]].
  { apply bind_M_inl. unfold lift. cbn [begun objects]. rewrite Hpar. reflexivity. }
  rewrite (bind_M_inr _ _ (begun w) parameters (begun w))
    by (unfold lift; rewrite Hpar; reflexivity).
  destruct H as [[Hnone ->] | [[obj Hobj] [Hact ->]]].
  { apply bind_M_inl. unfold bpy.objects_getitem. cbn [begun objects].
    rewrite Hnone. reflexivity. }
  rewrite (bind_M_inr _ _ (begun w) obj (begun w))
    by (unfold bpy.objects_getitem; cbn [begun objects]; rewrite Hobj; reflexivity).
  apply bind_M_inl. unfold bpy.set_context_rotation_mode.
  change (bpy.active_object (begun w)) with (bpy.active_object w).
  rewrite Hact. reflexivity.
Qed.

(** X12. In a scene without an object named ['source'] the run raises
    [KeyError] and has done nothing but print its first message: no file
    is read or written, the solver is not called, the scene is as it
    was. *)
Theorem no_source_raises (self : Operator) (w : World) :
  bpy.find_object "source" (objects w) = None ->
  execute pmcx_run self w = (inl KeyError, begun w).
Proof.
  intros Hnone. apply raises_at_once.
  destruct (gather_parameters (objects w)) as [e | parameters] eqn:Hpar.
  - left. apply gather_parameters_raises in Hpar as ->. reflexivity.
  - right. split; [exists parameters; reflexivity |]. left. split; [exact Hnone | reflexivity].
Qed.

(** X13. With a source in the scene and the parameters gathered, but no
    active object, the run raises [AttributeError] and has done nothing
    but print its first message. *)
Theorem no_active_object_raises (self : Operator) (w : World)
    (parameters : list (list idprop)) (obj : Object) :
  gather_parameters (objects w) = ok parameters ->
  bpy.find_object "source" (objects w) = Some obj ->
  bpy.active_object w = None ->
  execute pmcx_run self w = (inl AttributeError, begun w).
Proof.
  intros Hpar Hobj Hact. apply raises_at_once.
  right. split; [exists parameters; exact Hpar |].
  right. split; [exists obj; exact Hobj |]. split; [exact Hact | reflexivity].
Qed.

(** X18. A run that has finished cannot be repeated on the scene it leaves:
    the scene is empty, so a second run raises [KeyError] at once and
    leaves the three files of the first run in place. *)
Theorem second_run_raises (self self' : Operator) (w w' : World) (r : gset string) :
  execute pmcx_run self w = (inr r, w') ->
  execute pmcx_run self' w' = (inl KeyError, begun w').
Proof.
  intros Hrun. apply execute_steps in Hrun as [_ Hrun].
  destruct Hrun as (parameters & obj & act & dir & sp1 & sp2 & folder & vol & affine_matrix
                    & move & scale & cfg & res & flux & Hrun).
  destruct Hrun as (_ & _ & _ & _ & _ & _ & _ & _ & _ & _ & _ & _ & _ & ->).
  apply raises_at_once. right. split; [exists []; reflexivity |].
  left. split; reflexivity.
Qed.

End KeptFacts.

(** ** Runs that stop at the work folder *)

Section FolderFacts.

Variable pmcx_run : Cfg -> result Res.

(** X15. When lines 66-96 do not raise and the work folder exists but has
    no [ImageMesh.mat], the run raises [FileNotFoundError]: the folder is
    as it was, the solver is not called, and the only change to the scene
    is that the active object is now in quaternion mode. *)
Theorem missing_image_mesh (self : Operator) (w : World)
    (parameters : list (list idprop)) (obj act : Object) (dir : list R)
    (sp1 sp2 : pyarray) (folder : gmap string file) :
  workfolder w = Some folder ->
  folder !! "ImageMesh.mat" = None ->
  gather_parameters (objects w) = ok parameters ->
  bpy.find_object "source" (objects w) = Some obj ->
  bpy.active_object w = Some act ->
  quaternion2euler (bpy.quaternion_list (rotation_quaternion act)) = ok dir ->
  source_array obj "srcparam1" = ok sp1 ->
  source_array obj "srcparam2" = ok sp2 ->
  execute pmcx_run self w
  = (inl FileNotFoundError,
     mkWorld (quaternion_mode act (objects w)) (context_object w) (Directory folder)
       (trace w ++ [ EvPrint "Begin to run MMC source transport simulation ...";
                     EvLoadmat "ImageMesh.mat" ])).
Proof.
  intros Hfolder Hnone Hpar Hobj Hact Hdir Hsp1 Hsp2.
  assert (Hpath : workpath w = Directory folder).
  { unfold workfolder in Hfolder. destruct (workpath w); congruence. }
  apply (execute_from_line_99 pmcx_run self w parameters obj act dir sp1 sp2);
    try assumption.
  unfold bind_M, fs.isdir, reads, workfolder, fs.loadmat, unit_M, ok, raise.
  cbn [workpath objects context_object trace begun]. rewrite Hpath.
  cbn [negb workpath objects context_object trace]. rewrite Hnone.
  rewrite <- app_assoc. reflexivity.
Qed.

End FolderFacts.

(** ** The configuration and the results *)

Section CfgFacts.

Variable pmcx_run : Cfg -> result Res.

Local Open Scope R_scope.

(** X16. Rescaling the source position undoes the affine map of
    [ImageMesh.mat]: where a scale is not 0, scale times [cfg['srcpos']]
    plus translation gives back the location of the source. *)
Theorem srcpos_round_trip (self : Operator) (w w' : World) (r : gset string) :
  execute pmcx_run self w = (inr r, w') ->
  exists obj folder vol affine_matrix cfg lx ly lz tx ty tz sx sy sz px py pz,
    bpy.find_object "source" (objects w) = Some obj
    /\ location obj = (lx, ly, lz)
    /\ workfolder w = Some folder
    /\ folder !! "ImageMesh.mat" = Some (MatFile (Some vol) (Some affine_matrix))
    /\ np.getitem2 affine_matrix 0 3 = ok tx
    /\ np.getitem2 affine_matrix 1 3 = ok ty
    /\ np.getitem2 affine_matrix 2 3 = ok tz
    /\ np.getitem2 affine_matrix 0 0 = ok sx
    /\ np.getitem2 affine_matrix 1 1 = ok sy
    /\ np.getitem2 affine_matrix 2 2 = ok sz
    /\ solver_calls (trace w') = solver_calls (trace w) ++ [cfg]
    /\ cfg_srcpos cfg = [px; py; pz]
    /\ (sx <> 0 -> sx * px + tx = lx)
    /\ (sy <> 0 -> sy * py + ty = ly)
    /\ (sz <> 0 -> sz * pz + tz = lz).
Proof.
  intros H. apply execute_steps in H as [_ H].
  destruct H as (parameters & obj & act & dir & sp1 & sp2 & folder & vol & affine_matrix
                 & move & scale & cfg & res & flux & H).
  destruct H as (H1 & H2 & H3 & H4 & H5 & H6 & H7 & H8 & H9 & H10 & H11 & H12 & H13 & ->).
  apply affine_move_ok in H9 as (tx & ty & tz & Htx & Hty & Htz & ->).
  apply affine_scale_ok in H10 as (sx & sy & sz & Hsx & Hsy & Hsz & ->).
  destruct (location obj) as [[lx ly] lz] eqn:Hloc.
  apply make_cfg_ok in H11
    as (srctype & diff & srcpos & p1 & p2 & u & s0 & unitinmm
        & Hsrctype & Hdiff & Hsrcpos & Hp1 & Hp2 & Hu & Hs0 & Hunit & ->).
  cbn in Hdiff. unfold ok in Hdiff. injection Hdiff as <-.
  cbn in Hsrcpos. unfold ok in Hsrcpos. injection Hsrcpos as <-.
  exists obj, folder, vol, affine_matrix. eexists.
  exists lx, ly, lz, tx, ty, tz, sx, sy, sz.
  exists ((lx - tx) / sx), ((ly - ty) / sy), ((lz - tz) / sz).
  repeat (split; [first [assumption | reflexivity] |]).
  cbn [trace cfg_srcpos]. split.
  { rewrite solver_calls_app. f_equal. apply solver_calls_prepare_events. }
  split; [reflexivity |].
  repeat split; intros Hnz; field; exact Hnz.
Qed.

(** A source parameter that line 108 can divide is an array of four
    components or of one, and comes out with four. *)
Lemma srcparam_shape (obj : Object) (key : string) (sp : pyarray)
    (sx sy sz : R) (p : np.array1) :
  source_array obj key = ok sp ->
  divide_pyarray sp (np.append [sx; sy; sz] 1) = ok p ->
  exists xs,
    props obj !! key = Some (IDArray xs)
    /\ (length xs = 4%nat \/ length xs = 1%nat)
    /\ length p = 4%nat.
Proof.
  unfold source_array, bpy.getitem. intros Hsp Hp.
  destruct (props obj !! key) as [[x | s | xs] |]; cbn in Hsp; try discriminate.
  - unfold ok in Hsp. injection Hsp as <-.
    destruct s; cbn in Hp; discriminate.
  - unfold ok in Hsp. injection Hsp as <-.
    exists xs. split; [reflexivity |].
    destruct xs as [| a [| b [| c [| d [| t rest]]]]]; cbn in Hp; try discriminate;
      unfold ok in Hp; injection Hp as <-; split; auto.
Qed.

(** X17. A run that does not raise had, on its source, [srcparam1] and
    [srcparam2] that are arrays of four components or of one (numpy
    spreads a single component over the four divisors); IDs of any other
    kind or length make the run raise.  Either way the parameter handed to
    the solver has four components. *)
Theorem srcparam_four_or_one (self : Operator) (w w' : World) (r : gset string) :
  execute pmcx_run self w = (inr r, w') ->
  exists obj cfg xs1 xs2,
    bpy.find_object "source" (objects w) = Some obj
    /\ solver_calls (trace w') = solver_calls (trace w) ++ [cfg]
    /\ props obj !! "srcparam1" = Some (IDArray xs1)
    /\ (length xs1 = 4%nat \/ length xs1 = 1%nat)
    /\ length (cfg_srcparam1 cfg) = 4%nat
    /\ props obj !! "srcparam2" = Some (IDArray xs2)
    /\ (length xs2 = 4%nat \/ length xs2 = 1%nat)
    /\ length (cfg_srcparam2 cfg) = 4%nat.
Proof.
  intros H. apply execute_steps in H as [_ H].
  destruct H as (parameters & obj & act & dir & sp1 & sp2 & folder & vol & affine_matrix
                 & move & scale & cfg & res & flux & H).
  destruct H as (H1 & H2 & H3 & H4 & H5 & H6 & H7 & H8 & H9 & H10 & H11 & H12 & H13 & ->).
  apply affine_scale_ok in H10 as (sx & sy & sz & Hsx & Hsy & Hsz & ->).
  apply make_cfg_ok in H11
    as (srctype & diff & srcpos & p1 & p2 & u & s0 & unitinmm
        & Hsrctype & Hdiff & Hsrcpos & Hp1 & Hp2 & Hu & Hs0 & Hunit & ->).
  destruct (srcparam_shape _ _ _ _ _ _ _ H5 Hp1) as (xs1 & Hx1 & Hl1 & Hq1).
  destruct (srcparam_shape _ _ _ _ _ _ _ H6 Hp2) as (xs2 & Hx2 & Hl2 & Hq2).
  exists obj. eexists. exists xs1, xs2. cbn [trace cfg_srcparam1 cfg_srcparam2].
  split; [exact H2 |].
  split; [rewrite solver_calls_app; f_equal; apply solver_calls_prepare_events |].
  repeat (split; [assumption |]). assumption.
Qed.

(** What [plot_flux] can raise. *)
Lemma plot_flux_raises (res : Res) (e : exn) :
  plot_flux res = inl e -> e = KeyError \/ e = IndexError.
Proof.
  unfold plot_flux, fs.getvar, first_gate.
  destruct (res_flux res) as [f |]; cbn [rbind ok raise]; [| left; congruence].
  destruct (shape4 f) as [[[n1 n2] n3] n4].
  destruct (Nat.eqb n4 0); cbn [rbind ok raise]; [right; congruence |].
  destruct (res_stat res) as [stat |]; cbn [rbind ok raise]; [| left; congruence].
  destruct (stat !! "normalizer"); cbn [rbind ok raise]; [discriminate | left; congruence].
Qed.

(** X19. When the solver returns but line 118 cannot compute the plot (a
    result without ['flux'], ['stat'] or ['normalizer'] gives [KeyError], a
    flux without a time gate [IndexError]), the run raises after it has
    saved [mmcinfo.json] and [mcx_result.json]: [plot_result.json] is not
    written and still holds what an earlier run left there. *)
Theorem flux_failure_keeps_old_plot (self : Operator) (w w' : World) (e : exn)
    (cfg : Cfg) (res : Res) :
  execute pmcx_run self w = (inl e, w') ->
  solver_calls (trace w') = solver_calls (trace w) ++ [cfg] ->
  pmcx_run cfg = ok res ->
  plot_flux res = inl e
  /\ (e = KeyError \/ e = IndexError)
  /\ exists folder0 parameters,
       workfolder w = Some folder0
       /\ workfolder w'
          = Some (<["mcx_result.json" := JsonFile (SResult res)]>
                    (<["mmcinfo.json" := JsonFile (SInfo parameters cfg)]> folder0))
       /\ (<["mcx_result.json" := JsonFile (SResult res)]>
             (<["mmcinfo.json" := JsonFile (SInfo parameters cfg)]> folder0))
          !! "plot_result.json"
          = folder0 !! "plot_result.json".
Proof.
  intros Hrun Hcalls Hsolver. apply execute_raises in Hrun.
  inversion Hrun; subst; cbn [trace begun workfolder] in *;
    rewrite <- ?app_assoc in Hcalls; rewrite !solver_calls_app in Hcalls;
    apply app_inv_head in Hcalls; cbn in Hcalls; try discriminate Hcalls.
  - injection Hcalls as ->. unfold ok in *. congruence.
  - injection Hcalls as ->.
    assert (res0 = res) as -> by (unfold ok in *; congruence).
    split; [assumption |]. split; [eapply plot_flux_raises; eassumption |].
    eexists. exists parameters.
    split; [eassumption |]. split; [reflexivity |].
    rewrite !lookup_insert_ne by discriminate. reflexivity.
Qed.

End CfgFacts.

(** ** The further properties on the example scenes *)

(** X8 on the scene without a work folder: the run raises and the three
    objects are still there. *)
Lemma raise_keeps_scene_witness :
  execute solver dialog scene_without_folder
  = (inl FileNotFoundError, snd (execute solver dialog scene_without_folder))
  /\ context_object (snd (execute solver dialog scene_without_folder))
     = context_object scene_without_folder
  /\ Forall2 (fun o o' => o' = o \/ o' = bpy.with_rotation_mode "QUATERNION" o)
       (objects scene_without_folder)
       (objects (snd (execute solver dialog scene_without_folder))).
Proof.
  assert (H : execute solver dialog scene_without_folder
              = (inl FileNotFoundError, snd (execute solver dialog scene_without_folder)))
    by (vm_compute; reflexivity).
  split; [exact H | exact (raise_keeps_scene solver dialog _ _ _ H)].
Defined.

(** X10 on the example scene: [ImageMesh.mat] survives the run. *)
Lemma other_files_kept_witness :
  exists folder',
    workfolder (snd (execute solver dialog scene)) = Some folder'
    /\ folder' !! "ImageMesh.mat" = Some (MatFile (Some image) (Some affine)).
Proof.
  apply (other_files_kept solver dialog scene folder);
    [reflexivity | reflexivity | discriminate | discriminate | discriminate].
Defined.

(** X11 on a folder that holds an earlier result, with a solver that
    raises: the earlier result is still there. *)
Lemma solver_failure_keeps_old_results_witness :
  execute broken_solver dialog scene_used
  = (inl SolverError, snd (execute broken_solver dialog scene_used))
  /\ exists folder',
       workfolder (snd (execute broken_solver dialog scene_used)) = Some folder'
       /\ folder' !! "mcx_result.json" = Some (JsonFile (SResult dark)).
Proof.
  assert (H : execute broken_solver dialog scene_used
              = (inl SolverError, snd (execute broken_solver dialog scene_used)))
    by (vm_compute; reflexivity).
  split; [exact H |].
  assert (Hc : exists cfg,
             solver_calls (trace (snd (execute broken_solver dialog scene_used)))
             = solver_calls (trace scene_used) ++ [cfg])
    by (eexists; vm_compute; reflexivity).
  destruct Hc as [cfg Hc].
  destruct (solver_failure_keeps_old_results broken_solver dialog _ _ _ SolverError cfg
              H Hc eq_refl)
    as (_ & folder0 & parameters & Hfolder & Hfolder' & Hres & _).
  change (Some used_folder = Some folder0) in Hfolder. injection Hfolder as <-.
  eexists. split; [exact Hfolder' |]. rewrite Hres. reflexivity.
Defined.

(** X12 on the scene of two regions and no source. *)
Lemma no_source_raises_witness :
  bpy.find_object "source" (objects scene_no_source) = None
  /\ execute solver dialog scene_no_source = (inl KeyError, begun scene_no_source).
Proof.
  assert (H : bpy.find_object "source" (objects scene_no_source) = None) by reflexivity.
  split; [exact H | exact (no_source_raises solver dialog scene_no_source H)].
Defined.

(** X13 on the example scene with no object active. *)
Lemma no_active_object_raises_witness :
  bpy.active_object scene_no_active = None
  /\ execute solver dialog scene_no_active = (inl AttributeError, begun scene_no_active).
Proof.
  split; [reflexivity |].
  eapply no_active_object_raises; reflexivity.
Defined.

(** X14 on the scene without a work folder. *)
Lemma makedirs_when_folder_missing_witness :
  workpath scene_without_folder = Missing
  /\ fst (execute solver dialog scene_without_folder) = inl FileNotFoundError
  /\ workfolder (snd (execute solver dialog scene_without_folder)) = Some ∅
  /\ trace (snd (execute solver dialog scene_without_folder))
     = trace scene_without_folder
       ++ [ EvPrint "Begin to run MMC source transport simulation ...";
            EvMakedirs; EvLoadmat "ImageMesh.mat" ].
Proof.
  split; [reflexivity |].
  eapply makedirs_when_folder_missing; reflexivity.
Defined.

(** X20 on the scene where a file has the name of the work folder. *)
Lemma file_in_place_of_folder_witness :
  workpath scene_file_in_the_way = RegularFile
  /\ execute solver dialog scene_file_in_the_way
     = (inl FileExistsError,
        mkWorld (quaternion_mode source (objects scene_file_in_the_way))
          (context_object scene_file_in_the_way) RegularFile
          (trace scene_file_in_the_way
           ++ [EvPrint "Begin to run MMC source transport simulation ..."])).
Proof.
  split; [reflexivity |].
  eapply file_in_place_of_folder; reflexivity.
Defined.

(** X15 on a folder that holds an earlier result but no [ImageMesh.mat]. *)
Lemma missing_image_mesh_witness :
  stale_folder !! "ImageMesh.mat" = None
  /\ execute solver dialog scene_stale
     = (inl FileNotFoundError,
        mkWorld (quaternion_mode source (objects scene_stale)) (context_object scene_stale)
          (Directory stale_folder)
          (trace scene_stale
           ++ [ EvPrint "Begin to run MMC source transport simulation ...";
                EvLoadmat "ImageMesh.mat" ])).
Proof.
  split; [reflexivity |].
  eapply missing_image_mesh; reflexivity.
Defined.

(** X16 on the example scene: scales (2, 2, 4), translation (10, 20, 0),
    location (30, 30, 0). *)
Lemma srcpos_round_trip_witness :
  execute solver dialog scene = (inr {[ "FINISHED" ]}, finished)
  /\ exists cfg px py pz,
       solver_calls (trace finished) = [cfg]
       /\ cfg_srcpos cfg = [px; py; pz]
       /\ 2 * px + 10 = 30 /\ 2 * py + 20 = 30 /\ 4 * pz + 0 = 0.
Proof.
  assert (H : execute solver dialog scene = (inr {[ "FINISHED" ]}, finished))
    by (vm_compute; reflexivity).
  split; [exact H |].
  destruct (srcpos_round_trip solver dialog scene finished _ H)
    as (obj & folder' & vol & affine_matrix & cfg & lx & ly & lz & tx & ty & tz & sx & sy & sz
        & px & py & pz & Hobj & Hloc & Hfolder & Hfile & Htx & Hty & Htz & Hsx & Hsy & Hsz
        & Hcalls & Hpos & Hx & Hy & Hz).
  change (Some source = Some obj) in Hobj. injection Hobj as <-.
  change ((30, 30, 0) = (lx, ly, lz)) in Hloc. injection Hloc as <- <- <-.
  change (Some folder = Some folder') in Hfolder. injection Hfolder as <-.
  change (Some (MatFile (Some image) (Some affine))
          = Some (MatFile (Some vol) (Some affine_matrix))) in Hfile.
  injection Hfile as <- <-.
  change (ok 10 = ok tx) in Htx. injection Htx as <-.
  change (ok 20 = ok ty) in Hty. injection Hty as <-.
  change (ok 0 = ok tz) in Htz. injection Htz as <-.
  change (ok 2 = ok sx) in Hsx. injection Hsx as <-.
  change (ok 2 = ok sy) in Hsy. injection Hsy as <-.
  change (ok 4 = ok sz) in Hsz. injection Hsz as <-.
  exists cfg, px, py, pz. split; [exact Hcalls |]. split; [exact Hpos |].
  split; [apply Hx; lra |]. split; [apply Hy; lra | apply Hz; lra].
Defined.

(** X17 on a source whose [srcparam1] has one component. *)
Lemma srcparam_four_or_one_witness :
  props source_one !! "srcparam1" = Some (IDArray [6])
  /\ execute solver dialog scene_one
     = (inr {[ "FINISHED" ]}, snd (execute solver dialog scene_one))
  /\ exists cfg,
       solver_calls (trace (snd (execute solver dialog scene_one))) = [cfg]
       /\ length (cfg_srcparam1 cfg) = 4%nat.
Proof.
  split; [reflexivity |].
  assert (H : execute solver dialog scene_one
              = (inr {[ "FINISHED" ]}, snd (execute solver dialog scene_one)))
    by (vm_compute; reflexivity).
  split; [exact H |].
  destruct (srcparam_four_or_one solver dialog scene_one _ _ H)
    as (obj & cfg & xs1 & xs2 & _ & Hcalls & _ & _ & Hlen & _).
  exists cfg. split; [exact Hcalls | exact Hlen].
Defined.

(** X18 on the example scene: the second run, here with the other dialog,
    raises. *)
Lemma second_run_raises_witness :
  execute solver dialog scene = (inr {[ "FINISHED" ]}, finished)
  /\ execute solver dialog_mmc finished = (inl KeyError, begun finished).
Proof.
  assert (H : execute solver dialog scene = (inr {[ "FINISHED" ]}, finished))
    by (vm_compute; reflexivity).
  split; [exact H | exact (second_run_raises solver dialog dialog_mmc scene finished _ H)].
Defined.

(** X19 on a folder that holds an earlier result, with a solver whose
    result has no ['flux']: [KeyError], and no [plot_result.json]. *)
Lemma flux_failure_keeps_old_plot_witness :
  execute fluxless_solver dialog scene_used
  = (inl KeyError, snd (execute fluxless_solver dialog scene_used))
  /\ exists folder',
       workfolder (snd (execute fluxless_solver dialog scene_used)) = Some folder'
       /\ folder' !! "plot_result.json" = None.
Proof.
  assert (H : execute fluxless_solver dialog scene_used
              = (inl KeyError, snd (execute fluxless_solver dialog scene_used)))
    by (vm_compute; reflexivity).
  split; [exact H |].
  assert (Hc : exists cfg,
             solver_calls (trace (snd (execute fluxless_solver dialog scene_used)))
             = solver_calls (trace scene_used) ++ [cfg])
    by (eexists; vm_compute; reflexivity).
  destruct Hc as [cfg Hc].
  destruct (flux_failure_keeps_old_plot fluxless_solver dialog _ _ _ cfg no_flux
              H Hc eq_refl)
    as (_ & _ & folder0 & parameters & Hfolder & Hfolder' & Hplot).
  change (Some used_folder = Some folder0) in Hfolder. injection Hfolder as <-.
  eexists. split; [exact Hfolder' |]. rewrite Hplot. reflexivity.
Defined.
